(** * Optics calculator: the equation solver of [app.py]

    A shallow embedding of [OpticsCalculator] (input validation, the mirror
    and lens solvers, rounding, image classification) and of the part of
    the [/calculate] route that drives it, followed by the properties of
    the specification that were checked against it.

    Python's [float] is IEEE 754 binary64, which is Rocq's primitive
    [float]; the solver is written once over an interface of the float
    operations it uses, and run on binary64.  A second instance of the
    interface, exact rational arithmetic extended with infinities and a
    not-a-number, is used where the specification speaks of the algebra of
    the formulas rather than of their rounded evaluation. *)

From Stdlib Require Import Floats ZArith QArith Qcanon String List.
Import ListNotations.

Set Implicit Arguments.
Set Warnings "-inexact-float".
Open Scope string_scope.

(** * Numbers *)

(** The float operations used by [app.py].  [f_quot] is the quotient for a
    divisor that Python accepts; the solver reaches it through [py_div]
    below, which raises on a zero divisor as Python does.  [f_round3] is
    [round(x, 3)], [f_isinf] is [math.isinf]. *)
Class PyFloat (F : Type) : Type := {
  f_zero : F;               (* 0 *)
  f_one : F;                (* 1 *)
  f_three_tenths : F;       (* 0.3 *)
  f_eps : F;                (* 1e-6 *)
  f_inf : F;                (* float('inf') *)
  f_ninf : F;               (* float('-inf') *)
  f_add : F -> F -> F;
  f_sub : F -> F -> F;
  f_mul : F -> F -> F;
  f_quot : F -> F -> F;
  f_neg : F -> F;
  f_abs : F -> F;
  f_lt : F -> F -> bool;    (* x < y *)
  f_le : F -> F -> bool;    (* x <= y *)
  f_eq : F -> F -> bool;    (* x == y *)
  f_isinf : F -> bool;
  f_round3 : F -> F
}.

(** [x > y] and [x >= y] are [y < x] and [y <= x]; [x != y] negates [==]. *)
Definition f_gt {F} `{PyFloat F} (x y : F) : bool := f_lt y x.
Definition f_ge {F} `{PyFloat F} (x y : F) : bool := f_le y x.
Definition f_ne {F} `{PyFloat F} (x y : F) : bool := negb (f_eq x y).

(** ** Decimal rounding *)

(** The integer nearest to [n / d], ties to the even one ([0 <= n]). *)
Definition round_half_even (n : Z) (d : positive) : Z :=
  let q := (n / Zpos d)%Z in
  match (2 * (n mod Zpos d) ?= Zpos d)%Z with
  | Lt => q
  | Gt => (q + 1)%Z
  | Eq => if Z.even q then q else (q + 1)%Z
  end.

(** The number of thousandths nearest to [m * 2^e]. *)
Definition thousandths (m : positive) (e : Z) : Z :=
  match e with
  | Zneg p => round_half_even (1000 * Zpos m) (2 ^ p)
  | _ => (1000 * Zpos m * 2 ^ e)%Z
  end.

(** ** Binary64 *)

Module B64.

(** [round(x, 3)] on a float: CPython rounds the exact binary value of
    [x] to three decimals (ties to even) and returns the double nearest
    to that decimal; zeros, infinities and nan are returned as they
    are, and a value that rounds to zero keeps its sign. *)
Definition round3 (x : float) : float :=
  match Prim2SF x with
  | S754_finite s m e =>
      match thousandths m e with
      | Zpos k =>
          SF2Prim (SFdiv prec emax (S754_finite s k 0)
                                   (S754_finite false 1000 0))
      | _ => if s then neg_zero else zero
      end
  | _ => x
  end.

(** The literals [0.3] and [1e-6] of the source, as the doubles Python
    reads them to. *)
Definition three_tenths : float := 0x1.3333333333333p-2%float.
Definition eps : float := 0x1.0c6f7a0b5ed8dp-20%float.

End B64.

#[export] Instance Binary64 : PyFloat float := {
  f_zero := 0%float;
  f_one := 1%float;
  f_three_tenths := B64.three_tenths;
  f_eps := B64.eps;
  f_inf := infinity;
  f_ninf := neg_infinity;
  f_add := PrimFloat.add;
  f_sub := PrimFloat.sub;
  f_mul := PrimFloat.mul;
  f_quot := PrimFloat.div;
  f_neg := PrimFloat.opp;
  f_abs := PrimFloat.abs;
  f_lt := PrimFloat.ltb;
  f_le := PrimFloat.leb;
  f_eq := PrimFloat.eqb;
  f_isinf := PrimFloat.is_infinity;
  f_round3 := B64.round3
}.

(** ** Exact arithmetic *)

(** The same operations without rounding error: rationals in lowest terms,
    the two infinities and a not-a-number that arithmetic on infinities
    yields ([inf - inf], [0 * inf], [inf / inf]).  There is one zero. *)
Module Exact.

Inductive num : Type :=
| Fin (q : Qc)
| PInf
| NInf
| NaN.

Definition signed_inf (negative : bool) : num :=
  if negative then NInf else PInf.

Definition is_neg (q : Qc) : bool :=
  match (q ?= 0)%Qc with Lt => true | _ => false end.

Definition add (x y : num) : num :=
  match x, y with
  | NaN, _ | _, NaN => NaN
  | Fin a, Fin b => Fin (a + b)
  | PInf, NInf | NInf, PInf => NaN
  | PInf, _ | _, PInf => PInf
  | NInf, _ | _, NInf => NInf
  end.

Definition neg (x : num) : num :=
  match x with
  | Fin a => Fin (- a)
  | PInf => NInf
  | NInf => PInf
  | NaN => NaN
  end.

Definition sub (x y : num) : num := add x (neg y).

Definition mul_inf (negative : bool) (a : Qc) : num :=
  match (a ?= 0)%Qc with
  | Eq => NaN
  | Lt => signed_inf (negb negative)
  | Gt => signed_inf negative
  end.

Definition mul (x y : num) : num :=
  match x, y with
  | NaN, _ | _, NaN => NaN
  | Fin a, Fin b => Fin (a * b)
  | PInf, Fin a | Fin a, PInf => mul_inf false a
  | NInf, Fin a | Fin a, NInf => mul_inf true a
  | PInf, PInf | NInf, NInf => PInf
  | PInf, NInf | NInf, PInf => NInf
  end.

(** The quotient; a zero divisor is never passed (see [py_div]). *)
Definition quot (x y : num) : num :=
  match x, y with
  | NaN, _ | _, NaN => NaN
  | Fin a, Fin b => Fin (a / b)
  | Fin _, _ => Fin 0
  | PInf, Fin b => signed_inf (is_neg b)
  | NInf, Fin b => signed_inf (negb (is_neg b))
  | _, _ => NaN
  end.

Definition abs (x : num) : num :=
  match x with
  | Fin a => Fin (if is_neg a then - a else a)
  | PInf | NInf => PInf
  | NaN => NaN
  end.

Definition ltb (x y : num) : bool :=
  match x, y with
  | NaN, _ | _, NaN => false
  | Fin a, Fin b => match (a ?= b)%Qc with Lt => true | _ => false end
  | _, NInf | PInf, _ => false
  | _, _ => true
  end.

Definition eqb (x y : num) : bool :=
  match x, y with
  | Fin a, Fin b => match (a ?= b)%Qc with Eq => true | _ => false end
  | PInf, PInf | NInf, NInf => true
  | _, _ => false
  end.

Definition leb (x y : num) : bool := ltb x y || eqb x y.

Definition isinf (x : num) : bool :=
  match x with
  | PInf | NInf => true
  | _ => false
  end.

(** [round(x, 3)]: the nearest multiple of 1/1000, ties to even. *)
Definition round3 (x : num) : num :=
  match x with
  | Fin a =>
      let k := round_half_even (1000 * Z.abs (Qnum a)) (Qden a) in
      Fin (Q2Qc ((if is_neg a then - k else k)%Z # 1000))
  | _ => x
  end.

(** A decimal literal [n / d]. *)
Definition dec (n : Z) (d : positive) : num := Fin (Q2Qc (n # d)).

End Exact.

#[export] Instance ExactArith : PyFloat Exact.num := {
  f_zero := Exact.dec 0 1;
  f_one := Exact.dec 1 1;
  f_three_tenths := Exact.dec 3 10;
  f_eps := Exact.dec 1 1000000;
  f_inf := Exact.PInf;
  f_ninf := Exact.NInf;
  f_add := Exact.add;
  f_sub := Exact.sub;
  f_mul := Exact.mul;
  f_quot := Exact.quot;
  f_neg := Exact.neg;
  f_abs := Exact.abs;
  f_lt := Exact.ltb;
  f_le := Exact.leb;
  f_eq := Exact.eqb;
  f_isinf := Exact.isinf;
  f_round3 := Exact.round3
}.

(** * The calculator *)

Section Calculator.

Context {F : Type} `{PyFloat F}.

(** The [data] dictionary handed to the calculator: the route has already
    turned every supplied field into a float, and an absent key reads as
    [None] through [data.get]. *)
Record Data : Type := {
  get_focal_length : option F;
  get_u : option F;
  get_v : option F;
  get_h1 : option F;
  get_h2 : option F
}.

(** The ['magnification'] entry: a string in the infinity case, a rounded
    number otherwise. *)
Inductive Magnification : Type :=
| MagText (s : string)
| MagValue (m : F).

Record ImageCharacteristics : Type := {
  nature : string;
  orientation : string;
  size : string;
  magnification : Magnification
}.

(** The attributes of an [OpticsCalculator] object.  The attribute
    [image_characteristics] exists only once the analysis has set it. *)
Record OpticsCalculator : Type := {
  focal_length : option F;
  u : option F;
  v : option F;
  h1 : option F;
  h2 : option F;
  errors : list string;
  warnings : list string;
  image_characteristics : option ImageCharacteristics
}.

Definition with_focal_length (x : option F) (c : OpticsCalculator) :=
  {| focal_length := x; u := u c; v := v c; h1 := h1 c; h2 := h2 c;
     errors := errors c; warnings := warnings c;
     image_characteristics := image_characteristics c |}.

Definition with_u (x : option F) (c : OpticsCalculator) :=
  {| focal_length := focal_length c; u := x; v := v c; h1 := h1 c;
     h2 := h2 c; errors := errors c; warnings := warnings c;
     image_characteristics := image_characteristics c |}.

Definition with_v (x : option F) (c : OpticsCalculator) :=
  {| focal_length := focal_length c; u := u c; v := x; h1 := h1 c;
     h2 := h2 c; errors := errors c; warnings := warnings c;
     image_characteristics := image_characteristics c |}.

Definition with_h1 (x : option F) (c : OpticsCalculator) :=
  {| focal_length := focal_length c; u := u c; v := v c; h1 := x;
     h2 := h2 c; errors := errors c; warnings := warnings c;
     image_characteristics := image_characteristics c |}.

Definition with_h2 (x : option F) (c : OpticsCalculator) :=
  {| focal_length := focal_length c; u := u c; v := v c; h1 := h1 c;
     h2 := x; errors := errors c; warnings := warnings c;
     image_characteristics := image_characteristics c |}.

Definition with_errors (l : list string) (c : OpticsCalculator) :=
  {| focal_length := focal_length c; u := u c; v := v c; h1 := h1 c;
     h2 := h2 c; errors := l; warnings := warnings c;
     image_characteristics := image_characteristics c |}.

Definition with_warnings (l : list string) (c : OpticsCalculator) :=
  {| focal_length := focal_length c; u := u c; v := v c; h1 := h1 c;
     h2 := h2 c; errors := errors c; warnings := l;
     image_characteristics := image_characteristics c |}.

Definition with_image_characteristics (x : ImageCharacteristics)
    (c : OpticsCalculator) :=
  {| focal_length := focal_length c; u := u c; v := v c; h1 := h1 c;
     h2 := h2 c; errors := errors c; warnings := warnings c;
     image_characteristics := Some x |}.

(** [self.errors.append(msg)] and [self.warnings.append(msg)]. *)
Definition errors_append (msg : string) (c : OpticsCalculator) :=
  with_errors (errors c ++ [msg]) c.

Definition warnings_append (msg : string) (c : OpticsCalculator) :=
  with_warnings (warnings c ++ [msg]) c.

(** [OpticsCalculator()]: [__init__] calls [reset_values]. *)
Definition reset_values : OpticsCalculator :=
  {| focal_length := None; u := None; v := None; h1 := None; h2 := None;
     errors := []; warnings := []; image_characteristics := None |}.

(** ** Selections *)

(** [optic_type] and [shape] come from [data.get] on the request: a
    string or [None]. *)
Definition truthy (s : option string) : bool :=
  match s with
  | Some s => negb (s =? "")
  | None => false
  end.

Definition is_str (s : option string) (lit : string) : bool :=
  match s with
  | Some s => s =? lit
  | None => false
  end.

Definition format_str (s : option string) : string :=
  match s with
  | Some s => s
  | None => "None"
  end.

(** ** [validate_inputs] *)

(** The messages of the validation errors. *)
Definition missing_selection : string :=
  "Please select both optic type and shape".

Definition zero_focal_length : string := "Focal length cannot be zero".

Definition invalid_object_distance : string :=
  "Object distance (u) must be negative (object is on the left side)".

Definition invalid_object_height : string :=
  "Object height (h1) must be positive".

Definition insufficient_inputs : string :=
  "At least 2 parameters must be provided for calculation".

(** The values of [data] are floats, so [float(data[...])] returns them
    and none of the [except (ValueError, TypeError)] handlers runs; the
    loop over ['v'] and ['h2'] therefore leaves the calculator as it
    is. *)
Definition check_focal_length (data : Data) (optic_type shape : option string)
    (c : OpticsCalculator) : OpticsCalculator :=
  match get_focal_length data with
  | Some f =>
      if f_eq f f_zero then errors_append zero_focal_length c
      else if is_str optic_type "mirror" then
        if f_le f f_zero then
          warnings_append ("Using absolute value of focal length for "
                           ++ format_str shape ++ " mirror") c
        else c
      else
        if is_str shape "convex" && f_le f f_zero then
          warnings_append "Convex lens focal length should be positive" c
        else if is_str shape "concave" && f_ge f f_zero then
          warnings_append "Concave lens focal length should be negative" c
        else c
  | None => c
  end.

Definition check_u (data : Data) (c : OpticsCalculator) : OpticsCalculator :=
  match get_u data with
  | Some x =>
      if f_ge x f_zero then
        errors_append invalid_object_distance c
      else c
  | None => c
  end.

Definition check_h1 (data : Data) (c : OpticsCalculator) : OpticsCalculator :=
  match get_h1 data with
  | Some x =>
      if f_le x f_zero then
        errors_append invalid_object_height c
      else c
  | None => c
  end.

Definition given (x : option F) : nat :=
  match x with
  | Some _ => 1
  | None => 0
  end.

Definition given_values (data : Data) : nat :=
  (given (get_focal_length data) + given (get_u data) + given (get_v data)
   + given (get_h1 data) + given (get_h2 data))%nat.

Definition check_given_values (data : Data) (c : OpticsCalculator)
    : OpticsCalculator :=
  if (given_values data <? 2)%nat then
    errors_append insufficient_inputs c
  else c.

Definition validate_inputs (data : Data) (optic_type shape : option string)
    (c : OpticsCalculator) : bool * OpticsCalculator :=
  let c := with_warnings [] (with_errors [] c) in
  if negb (truthy optic_type) || negb (truthy shape) then
    (false, errors_append missing_selection c)
  else
    let c := check_focal_length data optic_type shape c in
    let c := check_u data c in
    let c := check_h1 data c in
    let c := check_given_values data c in
    ((length (errors c) =? 0)%nat, c).

(** ** Exceptions *)

(** The body of a solver runs inside [try]; the only operation in it
    that can raise is [/], with [ZeroDivisionError] when the divisor is
    zero.  An outcome carries the calculator as it is when the body ends
    or when the exception leaves it: the assignments made so far stay. *)
Inductive outcome : Type :=
| Done (c : OpticsCalculator)
| ZeroDivisionError (c : OpticsCalculator).

Definition bind (o : outcome) (k : OpticsCalculator -> outcome) : outcome :=
  match o with
  | Done c => k c
  | ZeroDivisionError c => ZeroDivisionError c
  end.

(** [x / y], evaluated in state [c]. *)
Definition py_div (c : OpticsCalculator) (x y : F) (k : F -> outcome)
    : outcome :=
  if f_eq y f_zero then ZeroDivisionError c else k (f_quot x y).

Notation "'let/' q ':=' x '/' y 'on' c 'in' k" :=
  (py_div c x y (fun q => k))
  (at level 10, q name, x at level 9, y at level 9, c at level 9,
   k at level 200).

Infix ">>=" := bind (at level 50, left associativity).

(** The first lines of both solvers: copy the five entries of [data]. *)
Definition extract (data : Data) (c : OpticsCalculator) : OpticsCalculator :=
  {| focal_length := get_focal_length data; u := get_u data;
     v := get_v data; h1 := get_h1 data; h2 := get_h2 data;
     errors := errors c; warnings := warnings c;
     image_characteristics := image_characteristics c |}.

Definition object_at_focal_point : string :=
  "Object at focal point - image formed at infinity (parallel rays)".

Definition image_at_focal_point : string :=
  "Image at focal point - object would be at infinity".

(** ** [calculate_mirror] *)

(** Apply sign conventions for mirrors. *)
Definition mirror_sign_convention (shape : option string)
    (c : OpticsCalculator) : OpticsCalculator :=
  match focal_length c with
  | Some f =>
      if is_str shape "concave" && f_gt f f_zero then
        with_focal_length (Some (f_neg (f_abs f))) c
      else if is_str shape "convex" && f_lt f f_zero then
        with_focal_length (Some (f_abs f)) c
      else c
  | None => c
  end.

(** Mirror formula: 1/f = 1/u + 1/v. *)
Definition mirror_formula (c : OpticsCalculator) : outcome :=
  match u c, v c, focal_length c with
  | Some xu, Some xv, None =>
      let/ q := (f_mul xu xv) / (f_add xu xv) on c in
      Done (with_focal_length (Some q) c)
  | Some xu, None, Some f =>
      if f_lt (f_abs (f_sub xu f)) f_eps then
        Done (errors_append object_at_focal_point
                (with_v (Some (if f_lt f f_zero then f_inf else f_ninf)) c))
      else
        let/ q := (f_mul f xu) / (f_sub xu f) on c in
        Done (with_v (Some q) c)
  | None, Some xv, Some f =>
      if f_lt (f_abs (f_sub xv f)) f_eps then
        Done (errors_append image_at_focal_point
                (with_u (Some (if f_lt f f_zero then f_inf else f_ninf)) c))
      else
        let/ q := (f_mul f xv) / (f_sub xv f) on c in
        Done (with_u (Some q) c)
  | _, _, _ => Done c
  end.

(** Magnification calculations: m = -v/u = h2/h1. *)
Definition mirror_magnification (c : OpticsCalculator) : outcome :=
  match u c, v c with
  | Some xu, Some xv =>
      let/ m := (f_neg xv) / xu on c in
      match h1 c, h2 c with
      | Some a, None => Done (with_h2 (Some (f_mul m a)) c)
      | None, Some b =>
          let/ q := b / m on c in Done (with_h1 (Some q) c)
      | _, _ => Done c
      end
  | _, _ => Done c
  end.

(** If magnification info given but distances missing. *)
Definition mirror_distances_from_heights (c : OpticsCalculator) : outcome :=
  match h1 c, h2 c with
  | Some a, Some b =>
      let/ m := b / a on c in
      match u c, v c with
      | Some xu, None => Done (with_v (Some (f_mul (f_neg m) xu)) c)
      | None, Some xv =>
          let/ q := (f_neg xv) / m on c in Done (with_u (Some q) c)
      | _, _ => Done c
      end
  | _, _ => Done c
  end.

(** Set default object height if not given. *)
Definition mirror_default_height (c : OpticsCalculator) : outcome :=
  match h1 c, focal_length c with
  | None, Some f =>
      let a := f_mul (f_abs f) f_three_tenths in
      let c := with_h1 (Some a) c in
      match u c, v c with
      | Some xu, Some xv =>
          let/ q := xv / xu on c in
          Done (with_h2 (Some (f_mul (f_neg q) a)) c)
      | _, _ => Done c
      end
  | _, _ => Done c
  end.

(** ** [_round_values] *)

Definition round_value (x : option F) : option F :=
  match x with
  | Some a => if negb (f_isinf a) then Some (f_round3 a) else Some a
  | None => None
  end.

Definition _round_values (c : OpticsCalculator) : OpticsCalculator :=
  let c := with_focal_length (round_value (focal_length c)) c in
  let c := with_u (round_value (u c)) c in
  let c := with_v (round_value (v c)) c in
  let c := with_h1 (round_value (h1 c)) c in
  with_h2 (round_value (h2 c)) c.

(** ** [_analyze_image_characteristics] *)

Definition _analyze_image_characteristics (optic_type : string)
    (shape : option string) (c : OpticsCalculator) : OpticsCalculator :=
  match u c, v c, h1 c, h2 c with
  | Some xu, Some xv, Some a, Some b =>
      if f_isinf xv || f_isinf xu then
        with_image_characteristics
          {| nature := "Image at infinity"; orientation := "Parallel rays";
             size := "Infinite"; magnification := MagText "∞" |} c
      else
        let m := if f_ne a f_zero then f_abs (f_quot b a) else f_zero in
        let nature :=
          if optic_type =? "mirror" then
            if f_lt xv f_zero then "Real" else "Virtual"
          else
            if f_gt xv f_zero then "Real" else "Virtual" in
        let orientation :=
          if optic_type =? "mirror" then
            if f_gt (f_mul b a) f_zero then "Erect" else "Inverted"
          else
            if f_gt (f_mul b a) f_zero then "Erect" else "Inverted" in
        let size :=
          if f_gt m f_one then "Magnified"
          else if f_lt m f_one then "Diminished"
          else "Same size" in
        with_image_characteristics
          {| nature := nature; orientation := orientation; size := size;
             magnification := MagValue (f_round3 m) |} c
  | _, _, _, _ => c
  end.

(** The message of the handler, [f"Calculation error: {str(e)}"]. *)
Definition calculation_error : string :=
  "Calculation error: float division by zero".

(** The four derivations of the [try] block, in the order of the
    source, then rounding and classification. *)
Definition mirror_solve (c : OpticsCalculator) : outcome :=
  mirror_formula c
  >>= mirror_magnification
  >>= mirror_distances_from_heights
  >>= mirror_default_height.

Definition mirror_body (shape : option string) (c : OpticsCalculator)
    : outcome :=
  mirror_solve c
  >>= (fun c => Done (_analyze_image_characteristics "mirror" shape
                        (_round_values c))).

Definition calculate_mirror (data : Data) (shape : option string)
    (c : OpticsCalculator) : bool * OpticsCalculator :=
  let c := mirror_sign_convention shape (extract data c) in
  match mirror_body shape c with
  | Done c => (true, c)
  | ZeroDivisionError c => (false, errors_append calculation_error c)
  end.

(** ** [calculate_lens] *)

(** Lens formula: 1/f = 1/v - 1/u. *)
Definition lens_formula (c : OpticsCalculator) : outcome :=
  match u c, v c, focal_length c with
  | Some xu, Some xv, None =>
      let/ q := (f_mul xu xv) / (f_sub xv xu) on c in
      Done (with_focal_length (Some q) c)
  | Some xu, None, Some f =>
      if f_lt (f_abs (f_add xu f)) f_eps then
        Done (errors_append object_at_focal_point
                (with_v (Some (if f_gt f f_zero then f_inf else f_ninf)) c))
      else
        let/ q := (f_mul f xu) / (f_add xu f) on c in
        Done (with_v (Some q) c)
  | None, Some xv, Some f =>
      if f_lt (f_abs (f_sub xv f)) f_eps then
        Done (errors_append image_at_focal_point
                (with_u (Some (if f_gt f f_zero then f_inf else f_ninf)) c))
      else
        let/ q := (f_mul f xv) / (f_sub xv f) on c in
        Done (with_u (Some q) c)
  | _, _, _ => Done c
  end.

(** Magnification calculations: m = v/u = h2/h1. *)
Definition lens_magnification (c : OpticsCalculator) : outcome :=
  match u c, v c with
  | Some xu, Some xv =>
      let/ m := xv / xu on c in
      match h1 c, h2 c with
      | Some a, None => Done (with_h2 (Some (f_mul m a)) c)
      | None, Some b =>
          let/ q := b / m on c in Done (with_h1 (Some q) c)
      | _, _ => Done c
      end
  | _, _ => Done c
  end.

(** If magnification info given but distances missing. *)
Definition lens_distances_from_heights (c : OpticsCalculator) : outcome :=
  match h1 c, h2 c with
  | Some a, Some b =>
      let/ m := b / a on c in
      match u c, v c with
      | Some xu, None => Done (with_v (Some (f_mul m xu)) c)
      | None, Some xv =>
          let/ q := xv / m on c in Done (with_u (Some q) c)
      | _, _ => Done c
      end
  | _, _ => Done c
  end.

(** Set default object height if not given. *)
Definition lens_default_height (c : OpticsCalculator) : outcome :=
  match h1 c, focal_length c with
  | None, Some f =>
      let a := f_mul (f_abs f) f_three_tenths in
      let c := with_h1 (Some a) c in
      match u c, v c with
      | Some xu, Some xv =>
          let/ q := xv / xu on c in
          Done (with_h2 (Some (f_mul q a)) c)
      | _, _ => Done c
      end
  | _, _ => Done c
  end.

Definition lens_solve (c : OpticsCalculator) : outcome :=
  lens_formula c
  >>= lens_magnification
  >>= lens_distances_from_heights
  >>= lens_default_height.

Definition lens_body (shape : option string) (c : OpticsCalculator)
    : outcome :=
  lens_solve c
  >>= (fun c => Done (_analyze_image_characteristics "lens" shape
                        (_round_values c))).

Definition calculate_lens (data : Data) (shape : option string)
    (c : OpticsCalculator) : bool * OpticsCalculator :=
  let c := extract data c in
  match lens_body shape c with
  | Done c => (true, c)
  | ZeroDivisionError c => (false, errors_append calculation_error c)
  end.

(** ** The [/calculate] route *)

(** The request once its numeric fields are read: [inputs] holds the
    floats of the fields that were supplied.  (A field that [float]
    rejects ends the request before the calculator is built.) *)
Record Request : Type := {
  optic_type : option string;
  shape : option string;
  inputs : Data
}.

(** [safe_value]: a number, [None], or the string for an infinity. *)
Inductive JsonValue : Type :=
| JNull
| JString (s : string)
| JNumber (x : F).

Definition safe_value (val : option F) : JsonValue :=
  match val with
  | None => JNull
  | Some x =>
      if f_isinf x then
        if f_gt x f_zero then JString "∞" else JString "-∞"
      else JNumber x
  end.

Record Results : Type := {
  results_focal_length : JsonValue;
  results_u : JsonValue;
  results_v : JsonValue;
  results_h1 : JsonValue;
  results_h2 : JsonValue
}.

(** The two shapes of the JSON answer: [success] true with the results,
    the diagram, the warnings and, when the attribute exists, the image
    characteristics; or [success] false with the errors. *)
Inductive Response : Type :=
| Success (results : Results) (diagram : option string)
          (warnings : list string)
          (image_characteristics : option ImageCharacteristics)
| Failure (errors : list string).

(** [generate_diagram] belongs to the plotting layer; it reads the
    calculator and returns the encoded image or [None]. *)
Variable generate_diagram :
  OpticsCalculator -> option string -> option string -> option string.

Definition calculate (request : Request) : Response :=
  let optic_type := optic_type request in
  let shape := shape request in
  let inputs := inputs request in
  let calculator := reset_values in
  let (valid, calculator) :=
    validate_inputs inputs optic_type shape calculator in
  if negb valid then Failure (errors calculator)
  else
    let (success, calculator) :=
      if is_str optic_type "mirror" then
        calculate_mirror inputs shape calculator
      else
        calculate_lens inputs shape calculator in
    if negb success then Failure (errors calculator)
    else
      let diagram_base64 := generate_diagram calculator optic_type shape in
      Success
        {| results_focal_length := safe_value (focal_length calculator);
           results_u := safe_value (u calculator);
           results_v := safe_value (v calculator);
           results_h1 := safe_value (h1 calculator);
           results_h2 := safe_value (h2 calculator) |}
        diagram_base64
        (warnings calculator)
        (image_characteristics calculator).

End Calculator.

Arguments Data : clear implicits.
Arguments OpticsCalculator : clear implicits.
Arguments Request : clear implicits.
Arguments Response : clear implicits.
Arguments Results : clear implicits.
Arguments JsonValue : clear implicits.
Arguments ImageCharacteristics : clear implicits.
Arguments Magnification : clear implicits.
Arguments outcome : clear implicits.

(** * Vocabulary of the statements *)

Section Vocabulary.

Context {F : Type} `{PyFloat F}.

(** A calculator in which exactly the named distances are known; the
    heights and the diagnostics are those of [c]. *)
Definition with_f_u (f xu : F) (c : OpticsCalculator F) :=
  with_v None (with_u (Some xu) (with_focal_length (Some f) c)).

Definition with_f_v (f xv : F) (c : OpticsCalculator F) :=
  with_u None (with_v (Some xv) (with_focal_length (Some f) c)).

Definition with_u_v (xu xv : F) (c : OpticsCalculator F) :=
  with_focal_length None (with_v (Some xv) (with_u (Some xu) c)).

(** The default object height, [abs(self.focal_length) * 0.3]. *)
Definition default_h1 (f : F) : F := f_mul (f_abs f) f_three_tenths.

(** [keeps x y]: a value present in [x] is the value of [y]. *)
Definition keeps (x y : option F) : Prop :=
  forall a, x = Some a -> y = Some a.

(** [reports x y]: a value present in [x] is reported in [y] after the
    final rounding. *)
Definition reports (x y : option F) : Prop :=
  forall a, x = Some a -> y = round_value (Some a).

Definition keeps_all (c c' : OpticsCalculator F) : Prop :=
  keeps (focal_length c) (focal_length c') /\ keeps (u c) (u c')
  /\ keeps (v c) (v c') /\ keeps (h1 c) (h1 c') /\ keeps (h2 c) (h2 c').

Definition present (x : option F) : bool :=
  match x with
  | Some _ => true
  | None => false
  end.

(** All five values are known. *)
Definition resolved (c : OpticsCalculator F) : bool :=
  present (focal_length c) && present (u c) && present (v c)
  && present (h1 c) && present (h2 c).

(** The five values of a calculator, as the input of a later solve. *)
Definition as_data (c : OpticsCalculator F) : Data F :=
  {| get_focal_length := focal_length c; get_u := u c; get_v := v c;
     get_h1 := h1 c; get_h2 := h2 c |}.

(** The end of a solver body: rounding, then classification. *)
Definition finish (ty : string) (sh : option string)
    (c : OpticsCalculator F) : OpticsCalculator F :=
  _analyze_image_characteristics ty sh (_round_values c).

(** The solver the route picks for an optic type, and the state its
    derivations start from. *)
Definition solver (ty : option string) (data : Data F) (sh : option string)
    (c : OpticsCalculator F) : bool * OpticsCalculator F :=
  if is_str ty "mirror" then calculate_mirror data sh c
  else calculate_lens data sh c.

Definition start (ty : option string) (data : Data F) (sh : option string)
    (c : OpticsCalculator F) : OpticsCalculator F :=
  if is_str ty "mirror" then mirror_sign_convention sh (extract data c)
  else extract data c.

(** The four derivations ran normally from [c0] to [c4], and no step
    changed a value that was present before it. *)
Definition steps_keep (ty : option string) (c0 c4 : OpticsCalculator F)
    : Prop :=
  exists c1 c2 c3,
    (if is_str ty "mirror" then
       mirror_formula c0 = Done c1
       /\ mirror_magnification c1 = Done c2
       /\ mirror_distances_from_heights c2 = Done c3
       /\ mirror_default_height c3 = Done c4
     else
       lens_formula c0 = Done c1
       /\ lens_magnification c1 = Done c2
       /\ lens_distances_from_heights c2 = Done c3
       /\ lens_default_height c3 = Done c4)
    /\ keeps_all c0 c1 /\ keeps_all c1 c2 /\ keeps_all c2 c3
    /\ keeps_all c3 c4.

(** The magnification computed from the distances: [-v / u] for a mirror,
    [v / u] for a lens. *)
Definition magnification_of (ty : option string) (xu xv : F) : F :=
  if is_str ty "mirror" then f_quot (f_neg xv) xu else f_quot xv xu.

(** With u and v known and h2 supplied without h1, the object height is
    [h2 / m] and the next step divides h2 by it: either quotient can have
    a zero divisor. *)
Definition height_inference_fails (ty : option string) (data : Data F)
    (xu xv : F) : bool :=
  match get_h1 data, get_h2 data with
  | None, Some b =>
      let m := magnification_of ty xu xv in
      f_eq m f_zero || f_eq (f_quot b m) f_zero
  | _, _ => false
  end.

(** [data] with another focal length. *)
Definition set_focal_length (f : F) (data : Data F) : Data F :=
  {| get_focal_length := Some f; get_u := get_u data; get_v := get_v data;
     get_h1 := get_h1 data; get_h2 := get_h2 data |}.

(** Readers of a response. *)
Definition succeeded (r : Response F) : bool :=
  match r with
  | Success _ _ _ _ => true
  | Failure _ => false
  end.

Definition results_of (r : Response F) : option (Results F) :=
  match r with
  | Success results _ _ _ => Some results
  | Failure _ => None
  end.

Definition warnings_of (r : Response F) : list string :=
  match r with
  | Success _ _ ws _ => ws
  | Failure _ => []
  end.

Definition characteristics_of (r : Response F)
    : option (ImageCharacteristics F) :=
  match r with
  | Success _ _ _ ic => ic
  | Failure _ => None
  end.

End Vocabulary.

(** Selections and binary64 inputs of the scenarios. *)
Definition mirror : option string := Some "mirror".
Definition lens : option string := Some "lens".
Definition concave : option string := Some "concave".
Definition convex : option string := Some "convex".

Definition inputs_of (f xu xv a b : option float) : Data float :=
  {| get_focal_length := f; get_u := xu; get_v := xv; get_h1 := a;
     get_h2 := b |}.

Definition request_of (optic_type shape : option string) (data : Data float)
    : Request float :=
  {| optic_type := optic_type; shape := shape; inputs := data |}.

(** The plotting layer, as an arbitrary function. *)
Definition Renderer : Type :=
  OpticsCalculator float -> option string -> option string -> option string.

(** * The diagram and the request *)

Section Diagram.

Context {F : Type} `{PyFloat F}.

(** ** [generate_diagram] *)

(** The two drawings belong to the plotting layer: the figure for a focal
    point case, and the ordinary ray diagram of the [try] block.  Each
    returns the encoded image, or [None] when drawing raises. *)
Variable _generate_focal_point_diagram :
  OpticsCalculator F -> option string -> option string -> option string.
Variable draw_ray_diagram :
  OpticsCalculator F -> option string -> option string -> option string.

(** [x is not None and math.isinf(x)]. *)
Definition is_infinite (x : option F) : bool :=
  match x with
  | Some a => f_isinf a
  | None => false
  end.

Definition generate_diagram (c : OpticsCalculator F)
    (optic_type shape : option string) : option string :=
  if is_infinite (u c) || is_infinite (v c) then
    _generate_focal_point_diagram c optic_type shape
  else draw_ray_diagram c optic_type shape.

(** ** The image arrow of [_draw_mirror_diagram] and [_draw_lens_diagram] *)

(** Both functions draw the image arrow with the same three choices, each
    made by the test [self.v > 0]. *)
Record ImageArrow : Type := {
  arrow_style : string;
  arrow_color : string;
  arrow_label : string
}.

Definition image_arrow (c : OpticsCalculator F) : option ImageArrow :=
  match v c, h2 c with
  | Some xv, Some _ =>
      Some {| arrow_style := if f_gt xv f_zero then "-" else "--";
              arrow_color := if f_gt xv f_zero then "green" else "orange";
              arrow_label := if f_gt xv f_zero then "Real Image"
                             else "Virtual Image" |}
  | _, _ => None
  end.

(** ** The rays of [_draw_mirror_rays] *)

(** The truth value of an attribute: [None] and zero are false. *)
Definition truth (x : option F) : bool :=
  match x with
  | Some a => f_ne a f_zero
  | None => false
  end.

(** The rays are drawn when the two guards let the function go on: all of
    u, v, h1, h2 and f are true, and none is infinite. *)
Definition rays_drawn (c : OpticsCalculator F) : bool :=
  (truth (u c) && truth (v c) && truth (h1 c) && truth (h2 c)
   && truth (focal_length c))
  && negb (is_infinite (u c) || is_infinite (v c) || is_infinite (h1 c)
           || is_infinite (h2 c) || is_infinite (focal_length c)).

(** [ray_style]: dotted only for a virtual and erect image. *)
Definition mirror_ray_style (c : OpticsCalculator F) : option string :=
  if rays_drawn c then
    match v c, h1 c, h2 c with
    | Some xv, Some a, Some b =>
        let is_virtual := f_gt xv f_zero in
        let is_erect := f_gt (f_mul a b) f_zero in
        Some (if is_virtual && is_erect then "--" else "-")
    | _, _, _ => None
    end
  else None.

End Diagram.

Section RawRequest.

Context {F : Type} `{PyFloat F}.

(** ** Reading the numeric fields of the request *)

(** A scalar field of the JSON body, by what the route does with it: the
    key is missing or [None]; the value prints as blanks only;
    [float(value)] returns a float; or [float(value)] raises
    [ValueError]. *)
Inductive RawValue : Type :=
| Absent
| Blank
| Numeric (x : F)
| Malformed.

Record RawRequest : Type := {
  raw_optic_type : option string;
  raw_shape : option string;
  raw_focal_length : RawValue;
  raw_u : RawValue;
  raw_v : RawValue;
  raw_h1 : RawValue;
  raw_h2 : RawValue
}.

(** One turn of the loop over the keys: the value to store, if any, or
    the message of the early answer. *)
Definition read_value (key : string) (value : RawValue)
    : string + option F :=
  match value with
  | Absent | Blank => inr None
  | Numeric x => inr (Some x)
  | Malformed => inl ("Invalid value for " ++ key ++ ": must be a number")
  end.

Definition read_inputs (r : RawRequest) : string + Data F :=
  match read_value "focal_length" (raw_focal_length r) with
  | inl e => inl e
  | inr f =>
  match read_value "u" (raw_u r) with
  | inl e => inl e
  | inr xu =>
  match read_value "v" (raw_v r) with
  | inl e => inl e
  | inr xv =>
  match read_value "h1" (raw_h1 r) with
  | inl e => inl e
  | inr a =>
  match read_value "h2" (raw_h2 r) with
  | inl e => inl e
  | inr b =>
      inr {| get_focal_length := f; get_u := xu; get_v := xv;
             get_h1 := a; get_h2 := b |}
  end end end end end.

(** The route from the JSON body on. *)
Definition calculate_request
    (generate_diagram :
       OpticsCalculator F -> option string -> option string -> option string)
    (r : RawRequest) : Response F :=
  match read_inputs r with
  | inl e => Failure [e]
  | inr data =>
      calculate generate_diagram
        {| optic_type := raw_optic_type r; shape := raw_shape r;
           inputs := data |}
  end.

End RawRequest.

Arguments RawValue : clear implicits.
Arguments RawRequest : clear implicits.
Arguments ImageArrow : clear implicits.

(** ** More vocabulary *)

Section MoreVocabulary.

Context {F : Type} `{PyFloat F}.

(** The calculator an outcome carries, and whether it is a normal end. *)
Definition state_of (o : outcome F) : OpticsCalculator F :=
  match o with
  | Done c => c
  | ZeroDivisionError c => c
  end.

Definition is_done (o : outcome F) : bool :=
  match o with
  | Done _ => true
  | ZeroDivisionError _ => false
  end.

(** The formula step of the solver of an optic type. *)
Definition formula_of (ty : option string) (c : OpticsCalculator F)
    : outcome F :=
  if is_str ty "mirror" then mirror_formula c else lens_formula c.

Definition is_null (j : JsonValue F) : bool :=
  match j with
  | JNull => true
  | _ => false
  end.

(** A result shown as one of the strings for an infinity. *)
Definition is_sentinel (j : JsonValue F) : bool :=
  match j with
  | JString _ => true
  | _ => false
  end.

(** The record that [_analyze_image_characteristics] stores for an image
    or object at infinity. *)
Definition at_infinity : ImageCharacteristics F :=
  {| nature := "Image at infinity"; orientation := "Parallel rays";
     size := "Infinite"; magnification := MagText "∞" |}.

(** The first key, in the order of the loop of the route, whose value
    [float] rejects. *)
Definition malformed (x : RawValue F) : bool :=
  match x with
  | Malformed => true
  | _ => false
  end.

Definition first_malformed (r : RawRequest F) : option string :=
  if malformed (raw_focal_length r) then Some "focal_length"
  else if malformed (raw_u r) then Some "u"
  else if malformed (raw_v r) then Some "v"
  else if malformed (raw_h1 r) then Some "h1"
  else if malformed (raw_h2 r) then Some "h2"
  else None.

(** A request in which every blank value is left out. *)
Definition unblank (x : RawValue F) : RawValue F :=
  match x with
  | Blank => Absent
  | _ => x
  end.

Definition without_blanks (r : RawRequest F) : RawRequest F :=
  {| raw_optic_type := raw_optic_type r; raw_shape := raw_shape r;
     raw_focal_length := unblank (raw_focal_length r);
     raw_u := unblank (raw_u r); raw_v := unblank (raw_v r);
     raw_h1 := unblank (raw_h1 r); raw_h2 := unblank (raw_h2 r) |}.

(** The errors and the warning that [validate_inputs] has for each
    input, when both selections are made. *)
Definition focal_length_errors (data : Data F) : list string :=
  match get_focal_length data with
  | Some f => if f_eq f f_zero then [zero_focal_length] else []
  | None => []
  end.

Definition u_errors (data : Data F) : list string :=
  match get_u data with
  | Some x => if f_ge x f_zero then [invalid_object_distance] else []
  | None => []
  end.

Definition h1_errors (data : Data F) : list string :=
  match get_h1 data with
  | Some x => if f_le x f_zero then [invalid_object_height] else []
  | None => []
  end.

Definition count_errors (data : Data F) : list string :=
  if (given_values data <? 2)%nat then [insufficient_inputs] else [].

Definition sign_warnings (data : Data F) (ty sh : option string)
    : list string :=
  match get_focal_length data with
  | Some f =>
      if f_eq f f_zero then []
      else if is_str ty "mirror" then
        if f_le f f_zero then
          [("Using absolute value of focal length for "
            ++ format_str sh ++ " mirror")%string]
        else []
      else if is_str sh "convex" && f_le f f_zero then
        ["Convex lens focal length should be positive"]
      else if is_str sh "concave" && f_ge f f_zero then
        ["Concave lens focal length should be negative"]
      else []
  | None => []
  end.

Definition validation_errors (data : Data F) : list string :=
  (focal_length_errors data ++ u_errors data ++ h1_errors data
   ++ count_errors data)%list.

End MoreVocabulary.

(** * Properties *)

Unset Implicit Arguments.
Open Scope list_scope.

(** ** Facts about binary64 comparisons *)

Module B64Facts.
Open Scope float_scope.

Lemma eqb_zero_inv (x : float) :
  (x =? 0) = true -> x = 0 \/ x = -0.
Proof.
  rewrite FloatAxioms.eqb_spec. intros E.
  rewrite <- (SF2Prim_Prim2SF x).
  destruct (Prim2SF x) as [[] | [] | | [] m e]; cbn in E;
    try discriminate; auto.
Qed.

Lemma abs_below_eps_of_zero (x : float) :
  (x =? 0) = true -> (abs x <? B64.eps) = true.
Proof.
  intros E. destruct (eqb_zero_inv _ E) as [-> | ->]; reflexivity.
Qed.

Lemma nonzero_outside_eps (x : float) :
  (abs x <? B64.eps) = false -> (x =? 0) = false.
Proof.
  intros E. destruct (x =? 0) eqn:Z; [| reflexivity].
  rewrite (abs_below_eps_of_zero _ Z) in E. discriminate.
Qed.

Lemma negative_nonzero (x : float) :
  (0 <=? x) = false -> (x =? 0) = false.
Proof.
  intros E. destruct (x =? 0) eqn:Z; [| reflexivity].
  destruct (eqb_zero_inv _ Z) as [-> | ->]; discriminate.
Qed.

Lemma positive_nonzero (x : float) :
  (x <=? 0) = false -> (x =? 0) = false.
Proof.
  intros E. destruct (x =? 0) eqn:Z; [| reflexivity].
  destruct (eqb_zero_inv _ Z) as [-> | ->]; discriminate.
Qed.

Lemma opp_abs_not_positive (x : float) :
  (0 <? x) = false -> (x =? 0) = false -> - abs x = x.
Proof.
  rewrite FloatAxioms.ltb_spec, FloatAxioms.eqb_spec. intros L E.
  apply Prim2SF_inj. rewrite opp_spec, abs_spec.
  change (Prim2SF 0) with (S754_zero false) in *.
  destruct (Prim2SF x) as [[] | [] | | [] m e]; cbn in *;
    try discriminate; reflexivity.
Qed.

Lemma abs_not_negative (x : float) :
  (x <? 0) = false -> (x =? 0) = false -> abs x = x.
Proof.
  rewrite FloatAxioms.ltb_spec, FloatAxioms.eqb_spec. intros L E.
  apply Prim2SF_inj. rewrite abs_spec.
  change (Prim2SF 0) with (S754_zero false) in *.
  destruct (Prim2SF x) as [[] | [] | | [] m e]; cbn in *;
    try discriminate; reflexivity.
Qed.

Lemma opp_abs_never_positive (x : float) : (0 <? - abs x) = false.
Proof.
  rewrite FloatAxioms.ltb_spec, opp_spec, abs_spec.
  change (Prim2SF 0) with (S754_zero false).
  destruct (Prim2SF x) as [[] | [] | | [] m e]; reflexivity.
Qed.

Lemma abs_never_negative (x : float) : (abs x <? 0) = false.
Proof.
  rewrite FloatAxioms.ltb_spec, abs_spec.
  change (Prim2SF 0) with (S754_zero false).
  destruct (Prim2SF x) as [[] | [] | | [] m e]; reflexivity.
Qed.

End B64Facts.


(** ** Facts about exact comparisons and the mirror formula *)

Module ExactFacts.

Lemma eqb_fin (a b : Qc) : Exact.eqb (Exact.Fin a) (Exact.Fin b) = true <-> a = b.
Proof.
  cbn. rewrite Qceq_alt. destruct (a ?= b)%Qc; split; congruence.
Qed.

Lemma eqb_fin_false (a b : Qc) : a <> b -> Exact.eqb (Exact.Fin a) (Exact.Fin b) = false.
Proof.
  intros N. destruct (Exact.eqb (Exact.Fin a) (Exact.Fin b)) eqn:E; [| reflexivity].
  now apply eqb_fin in E.
Qed.

(** A difference outside the threshold is not zero. *)
Lemma difference_nonzero (x : Qc) :
  Exact.ltb (Exact.abs (Exact.Fin x)) (Exact.dec 1 1000000) = false -> x <> Q2Qc 0.
Proof.
  intros T ->. discriminate T.
Qed.

(** A rejected [u >= 0] test means [u] is not zero. *)
Lemma object_distance_nonzero (x : Qc) :
  Exact.leb (Exact.dec 0 1) (Exact.Fin x) = false -> x <> Q2Qc 0.
Proof.
  intros T ->. discriminate T.
Qed.

Lemma image_distance_sum (qf qu : Qc) :
  qu <> Q2Qc 0 -> (qu + - qf <> Q2Qc 0)%Qc ->
  (qu + qf * qu / (qu + - qf) <> Q2Qc 0)%Qc.
Proof.
  intros U X E.
  assert (P : (qu * qu = (qu + qf * qu / (qu + - qf)) * (qu + - qf))%Qc)
    by (field; exact X).
  rewrite E, Qcmult_0_l in P.
  destruct (Qcmult_integral _ _ P); contradiction.
Qed.

Lemma focal_length_recovered (qf qu : Qc) :
  qu <> Q2Qc 0 -> (qu + - qf <> Q2Qc 0)%Qc ->
  (qu * (qf * qu / (qu + - qf)) / (qu + qf * qu / (qu + - qf)) = qf)%Qc.
Proof.
  intros U X. field. split; [exact X |]. intros E.
  assert (P : (qu * qu = Q2Qc 0)%Qc) by (rewrite <- E; ring).
  destruct (Qcmult_integral _ _ P); contradiction.
Qed.

End ExactFacts.


(** ** The focal-point branches of the distance formulas *)

Section FormulaBranches.

Open Scope float_scope.

Variable c : OpticsCalculator float.
Variables f x : float.

Lemma mirror_formula_f_u :
  mirror_formula (with_f_u f x c) =
  Done (if abs (x - f) <? B64.eps then
          errors_append object_at_focal_point
            (with_v (Some (if f <? 0 then infinity else neg_infinity))
               (with_f_u f x c))
        else with_v (Some (f * x / (x - f))) (with_f_u f x c)).
Proof.
  unfold mirror_formula, py_div; cbn.
  destruct (abs (x - f) <? B64.eps) eqn:E; [reflexivity |].
  now rewrite (B64Facts.nonzero_outside_eps _ E).
Qed.

Lemma mirror_formula_f_v :
  mirror_formula (with_f_v f x c) =
  Done (if abs (x - f) <? B64.eps then
          errors_append image_at_focal_point
            (with_u (Some (if f <? 0 then infinity else neg_infinity))
               (with_f_v f x c))
        else with_u (Some (f * x / (x - f))) (with_f_v f x c)).
Proof.
  unfold mirror_formula, py_div; cbn.
  destruct (abs (x - f) <? B64.eps) eqn:E; [reflexivity |].
  now rewrite (B64Facts.nonzero_outside_eps _ E).
Qed.

Lemma lens_formula_f_u :
  lens_formula (with_f_u f x c) =
  Done (if abs (x + f) <? B64.eps then
          errors_append object_at_focal_point
            (with_v (Some (if 0 <? f then infinity else neg_infinity))
               (with_f_u f x c))
        else with_v (Some (f * x / (x + f))) (with_f_u f x c)).
Proof.
  unfold lens_formula, py_div; cbn.
  destruct (abs (x + f) <? B64.eps) eqn:E; [reflexivity |].
  now rewrite (B64Facts.nonzero_outside_eps _ E).
Qed.

Lemma lens_formula_f_v :
  lens_formula (with_f_v f x c) =
  Done (if abs (x - f) <? B64.eps then
          errors_append image_at_focal_point
            (with_u (Some (if 0 <? f then infinity else neg_infinity))
               (with_f_v f x c))
        else with_u (Some (f * x / (x - f))) (with_f_v f x c)).
Proof.
  unfold lens_formula, py_div; cbn.
  destruct (abs (x - f) <? B64.eps) eqn:E; [reflexivity |].
  now rewrite (B64Facts.nonzero_outside_eps _ E).
Qed.

End FormulaBranches.


(** ** What the derivations leave alone, and what they resolve *)

Section Solve.

Context {F : Type} `{PyFloat F}.

Ltac split_tests :=
  match goal with
  | E : context [if ?b then _ else _] |- _ =>
      match type of b with bool => destruct b eqn:? end
  end.

Ltac run_solve :=
  intros c; destruct c as [[f|] [xu|] [xv|] [a|] [b|] es ws ic];
  unfold mirror_solve, lens_solve, mirror_formula, mirror_magnification,
    mirror_distances_from_heights, mirror_default_height,
    lens_formula, lens_magnification, lens_distances_from_heights,
    lens_default_height, py_div, bind, keeps, resolved;
  intros c' E; simpl in E; repeat (split_tests; simpl in E);
  try discriminate; injection E as <-; simpl.

Ltac close_cases :=
  repeat match goal with
  | |- _ /\ _ => split
  | |- forall _, _ => intro
  | E : Some _ = Some _ |- _ => injection E as ?; subst
  | E : None = Some _ |- _ => discriminate E
  | E : Some _ = None |- _ => discriminate E
  end; try reflexivity; try congruence.

(** When the derivations of the mirror solver end normally: a value
    that was present is unchanged; the warnings are untouched; all five
    values are resolved exactly when two of f, u, v were present; and a
    calculator that had no height gets the default object height of its
    focal length, with the image height that the magnification gives. *)
Lemma mirror_solve_spec :
  forall c c', mirror_solve c = Done c' ->
    (keeps (focal_length c) (focal_length c') /\ keeps (u c) (u c')
     /\ keeps (v c) (v c') /\ keeps (h1 c) (h1 c') /\ keeps (h2 c) (h2 c'))
    /\ warnings c' = warnings c
    /\ resolved c'
       = (2 <=? given (focal_length c) + given (u c) + given (v c))%nat
    /\ (h1 c = None -> h2 c = None ->
        forall f, focal_length c' = Some f ->
          h1 c' = Some (default_h1 f)
          /\ forall xu xv, u c' = Some xu -> v c' = Some xv ->
               h2 c' = Some (f_mul (f_neg (f_quot xv xu)) (default_h1 f))).
Proof.
  run_solve; unfold default_h1; close_cases.
Qed.

Lemma lens_solve_spec :
  forall c c', lens_solve c = Done c' ->
    (keeps (focal_length c) (focal_length c') /\ keeps (u c) (u c')
     /\ keeps (v c) (v c') /\ keeps (h1 c) (h1 c') /\ keeps (h2 c) (h2 c'))
    /\ warnings c' = warnings c
    /\ resolved c'
       = (2 <=? given (focal_length c) + given (u c) + given (v c))%nat
    /\ (h1 c = None -> h2 c = None ->
        forall f, focal_length c' = Some f ->
          h1 c' = Some (default_h1 f)
          /\ forall xu xv, u c' = Some xu -> v c' = Some xv ->
               h2 c' = Some (f_mul (f_quot xv xu) (default_h1 f))).
Proof.
  run_solve; unfold default_h1; close_cases.
Qed.

(** Where the object height of a normal run comes from: a supplied h1 is
    kept; without a focal length there is no default; with h2 alone it is
    derived from h2 when u and v are both known, and is the default
    otherwise. *)
Lemma mirror_solve_object_height :
  forall c c', mirror_solve c = Done c' ->
    (forall a, h1 c = Some a -> h1 c' = Some a)
    /\ (h1 c = None -> focal_length c' = None -> h1 c' = None)
    /\ (forall b, h1 c = None -> h2 c = Some b ->
        h2 c' = Some b
        /\ (forall f, u c' = None \/ v c' = None ->
              focal_length c' = Some f -> h1 c' = Some (default_h1 f))
        /\ (forall xu xv, u c' = Some xu -> v c' = Some xv ->
              h1 c' = Some (f_quot b (f_quot (f_neg xv) xu)))).
Proof.
  run_solve; unfold default_h1; close_cases;
    match goal with E : _ \/ _ |- _ => destruct E; discriminate end.
Qed.

Lemma lens_solve_object_height :
  forall c c', lens_solve c = Done c' ->
    (forall a, h1 c = Some a -> h1 c' = Some a)
    /\ (h1 c = None -> focal_length c' = None -> h1 c' = None)
    /\ (forall b, h1 c = None -> h2 c = Some b ->
        h2 c' = Some b
        /\ (forall f, u c' = None \/ v c' = None ->
              focal_length c' = Some f -> h1 c' = Some (default_h1 f))
        /\ (forall xu xv, u c' = Some xu -> v c' = Some xv ->
              h1 c' = Some (f_quot b (f_quot xv xu)))).
Proof.
  run_solve; unfold default_h1; close_cases;
    match goal with E : _ \/ _ |- _ => destruct E; discriminate end.
Qed.

Ltac redo_step :=
  unfold mirror_formula, mirror_magnification,
    mirror_distances_from_heights, mirror_default_height,
    lens_formula, lens_magnification, lens_distances_from_heights,
    lens_default_height, py_div; simpl;
  repeat match goal with
  | E : ?b = _ |- context [if ?b then _ else _] => rewrite E
  end; reflexivity.

Ltac keep_cases :=
  unfold keeps_all, keeps; simpl; repeat split; intros ? E;
  first [exact E | discriminate E].

(** No derivation overwrites a value that is present: each of the four
    steps of a normal run keeps every value its input state has. *)
Lemma mirror_solve_steps :
  forall c c4, mirror_solve c = Done c4 ->
    exists c1 c2 c3,
      mirror_formula c = Done c1
      /\ mirror_magnification c1 = Done c2
      /\ mirror_distances_from_heights c2 = Done c3
      /\ mirror_default_height c3 = Done c4
      /\ keeps_all c c1 /\ keeps_all c1 c2 /\ keeps_all c2 c3
      /\ keeps_all c3 c4.
Proof.
  run_solve; do 3 eexists;
    (split; [redo_step |]); (split; [redo_step |]);
    (split; [redo_step |]); (split; [redo_step |]);
    (split; [keep_cases |]); (split; [keep_cases |]);
    (split; keep_cases).
Qed.

Lemma lens_solve_steps :
  forall c c4, lens_solve c = Done c4 ->
    exists c1 c2 c3,
      lens_formula c = Done c1
      /\ lens_magnification c1 = Done c2
      /\ lens_distances_from_heights c2 = Done c3
      /\ lens_default_height c3 = Done c4
      /\ keeps_all c c1 /\ keeps_all c1 c2 /\ keeps_all c2 c3
      /\ keeps_all c3 c4.
Proof.
  run_solve; do 3 eexists;
    (split; [redo_step |]); (split; [redo_step |]);
    (split; [redo_step |]); (split; [redo_step |]);
    (split; [keep_cases |]); (split; [keep_cases |]);
    (split; keep_cases).
Qed.

End Solve.


(** ** Validation *)

Section Validation.

Context {F : Type} `{PyFloat F}.

(** The later checks only add to the error list. *)
Lemma check_h1_errors data (c : OpticsCalculator F) :
  exists l, errors (check_h1 data c) = errors c ++ l.
Proof.
  unfold check_h1. destruct (get_h1 data) as [a|].
  - destruct (f_le a f_zero).
    + now exists [invalid_object_height].
    + exists []. now rewrite app_nil_r.
  - exists []. now rewrite app_nil_r.
Qed.

Lemma check_given_values_errors data (c : OpticsCalculator F) :
  exists l, errors (check_given_values data c) = errors c ++ l.
Proof.
  unfold check_given_values. destruct (given_values data <? 2)%nat.
  - now exists [insufficient_inputs].
  - exists []. now rewrite app_nil_r.
Qed.

(** An object distance [u >= 0] puts its message in the error list, and
    later checks keep it there. *)
Lemma check_u_rejects data (c : OpticsCalculator F) xu :
  get_u data = Some xu -> f_ge xu f_zero = true ->
  In invalid_object_distance
     (errors (check_given_values data (check_h1 data (check_u data c)))).
Proof.
  intros U G.
  destruct (check_given_values_errors data (check_h1 data (check_u data c)))
    as [l2 ->].
  destruct (check_h1_errors data (check_u data c)) as [l1 ->].
  unfold check_u. rewrite U, G. cbn.
  rewrite !in_app_iff. left. left. right. now left.
Qed.

(** What a passed validation says about the inputs. *)
Lemma validate_inputs_passed data optic_type shape (c c1 : OpticsCalculator F) :
  validate_inputs data optic_type shape c = (true, c1) ->
  truthy optic_type = true /\ truthy shape = true
  /\ (forall f, get_focal_length data = Some f -> f_eq f f_zero = false)
  /\ (forall xu, get_u data = Some xu -> f_ge xu f_zero = false)
  /\ (forall a, get_h1 data = Some a -> f_le a f_zero = false)
  /\ (2 <= given_values data)%nat
  /\ errors c1 = [].
Proof.
  unfold validate_inputs.
  destruct (truthy optic_type); [| discriminate].
  destruct (truthy shape); [| discriminate]. cbn [negb orb].
  intros [= L <-]. apply Nat.eqb_eq, length_zero_iff_nil in L.
  revert L. set (c0 := with_warnings [] (with_errors [] c)).
  unfold check_given_values.
  destruct (given_values data <? 2)%nat eqn:G.
  { cbn. intros L. now destruct (errors (check_h1 _ _)). }
  apply Nat.ltb_ge in G.
  unfold check_h1.
  destruct (get_h1 data) as [a|] eqn:A;
    [destruct (f_le a f_zero) eqn:LA;
     [cbn; intros L; now destruct (errors (check_u _ _)) |] |];
    (unfold check_u;
     destruct (get_u data) as [xu|] eqn:U;
     [destruct (f_ge xu f_zero) eqn:GU;
      [cbn; intros L; now destruct (errors (check_focal_length _ _ _ _)) |] |];
     (unfold check_focal_length;
      destruct (get_focal_length data) as [f|] eqn:Fl;
      [destruct (f_eq f f_zero) eqn:Z; [cbn; discriminate |] |];
      intros L; repeat split; try assumption; try congruence)).
Qed.

End Validation.


(** ** From the derivations to the reported values *)

Section Reporting.

Context {F : Type} `{PyFloat F}.

Lemma analyze_fields (ty : string) (sh : option string)
    (c : OpticsCalculator F) :
  focal_length (_analyze_image_characteristics ty sh c) = focal_length c
  /\ u (_analyze_image_characteristics ty sh c) = u c
  /\ v (_analyze_image_characteristics ty sh c) = v c
  /\ h1 (_analyze_image_characteristics ty sh c) = h1 c
  /\ h2 (_analyze_image_characteristics ty sh c) = h2 c
  /\ errors (_analyze_image_characteristics ty sh c) = errors c
  /\ warnings (_analyze_image_characteristics ty sh c) = warnings c.
Proof.
  unfold _analyze_image_characteristics.
  destruct c as [f [xu|] [xv|] [a|] [b|] es ws ic]; cbn;
    try (repeat split; reflexivity).
  destruct (f_isinf xv || f_isinf xu); repeat split; reflexivity.
Qed.

Lemma finish_fields (ty : string) (sh : option string)
    (c : OpticsCalculator F) :
  focal_length (finish ty sh c) = round_value (focal_length c)
  /\ u (finish ty sh c) = round_value (u c)
  /\ v (finish ty sh c) = round_value (v c)
  /\ h1 (finish ty sh c) = round_value (h1 c)
  /\ h2 (finish ty sh c) = round_value (h2 c)
  /\ warnings (finish ty sh c) = warnings c.
Proof.
  unfold finish.
  destruct (analyze_fields ty sh (_round_values c))
    as (-> & -> & -> & -> & -> & _ & ->).
  repeat split.
Qed.

(** A successful solve is a normal end of the derivations, rounded and
    classified. *)
Lemma calculate_mirror_succeeded data sh (c c' : OpticsCalculator F) :
  calculate_mirror data sh c = (true, c') ->
  exists c4,
    mirror_solve (mirror_sign_convention sh (extract data c)) = Done c4
    /\ c' = finish "mirror" sh c4.
Proof.
  unfold calculate_mirror, mirror_body.
  destruct (mirror_solve _) as [c4 | c4]; cbn; [| discriminate].
  intros [= <-]. now exists c4.
Qed.

Lemma calculate_lens_succeeded data sh (c c' : OpticsCalculator F) :
  calculate_lens data sh c = (true, c') ->
  exists c4,
    lens_solve (extract data c) = Done c4 /\ c' = finish "lens" sh c4.
Proof.
  unfold calculate_lens, lens_body.
  destruct (lens_solve _) as [c4 | c4]; cbn; [| discriminate].
  intros [= <-]. now exists c4.
Qed.

Lemma keeps_reports (x y : option F) :
  keeps x y -> reports x (round_value y).
Proof. intros K a E. now rewrite (K a E). Qed.

Lemma sign_convention_heights (sh : option string) (c : OpticsCalculator F) :
  h1 (mirror_sign_convention sh c) = h1 c
  /\ h2 (mirror_sign_convention sh c) = h2 c
  /\ u (mirror_sign_convention sh c) = u c
  /\ v (mirror_sign_convention sh c) = v c.
Proof.
  unfold mirror_sign_convention.
  destruct (focal_length c) as [f|]; [| repeat split].
  destruct (is_str sh "concave" && f_gt f f_zero); [repeat split |].
  destruct (is_str sh "convex" && f_lt f f_zero); repeat split.
Qed.

(** The state the derivations start from has the supplied u, v, h1 and
    h2, and a focal length exactly when one was supplied. *)
Lemma start_fields ty sh (data : Data F) (c : OpticsCalculator F) :
  u (start ty data sh c) = get_u data
  /\ v (start ty data sh c) = get_v data
  /\ h1 (start ty data sh c) = get_h1 data
  /\ h2 (start ty data sh c) = get_h2 data
  /\ given (focal_length (start ty data sh c)) = given (get_focal_length data)
  /\ (forall f, get_focal_length data = Some f ->
        exists f', focal_length (start ty data sh c) = Some f').
Proof.
  unfold start. destruct (is_str ty "mirror").
  - destruct (sign_convention_heights sh (extract data c))
      as (-> & -> & -> & ->).
    unfold mirror_sign_convention, extract; cbn.
    destruct (get_focal_length data) as [f|].
    + destruct (is_str sh "concave" && f_gt f f_zero);
        [| destruct (is_str sh "convex" && f_lt f f_zero)];
        repeat split; intros f0 _; now eexists.
    + repeat split. intros f0 E. discriminate E.
  - repeat split. intros f E. now exists f.
Qed.

(** A successful solve, mirror or lens: the derivations ran normally from
    the start state, no step changed a value that was present, and the
    result is the end state rounded and classified. *)
Lemma solver_succeeded ty sh (data : Data F) (c c' : OpticsCalculator F) :
  solver ty data sh c = (true, c') ->
  exists c4,
    (if is_str ty "mirror" then mirror_solve (start ty data sh c) = Done c4
     else lens_solve (start ty data sh c) = Done c4)
    /\ steps_keep ty (start ty data sh c) c4
    /\ keeps_all (start ty data sh c) c4
    /\ resolved c4
       = (2 <=? given (get_focal_length data) + given (get_u data)
                + given (get_v data))%nat
    /\ focal_length c' = round_value (focal_length c4)
    /\ u c' = round_value (u c4) /\ v c' = round_value (v c4)
    /\ h1 c' = round_value (h1 c4) /\ h2 c' = round_value (h2 c4).
Proof.
  intros S.
  destruct (start_fields ty sh data c) as (Su & Sv & _ & _ & Sf & _).
  rewrite <- Su, <- Sv, <- Sf.
  unfold solver in S. unfold steps_keep, start.
  destruct (is_str ty "mirror").
  - destruct (calculate_mirror_succeeded data sh c c' S) as (c4 & L & ->).
    destruct (mirror_solve_steps _ _ L) as (c1 & c2 & c3 & Steps).
    destruct (mirror_solve_spec _ _ L) as (K & _ & R & _).
    destruct (finish_fields "mirror" sh c4) as (-> & -> & -> & -> & -> & _).
    exists c4. split; [exact L |]. split; [now exists c1, c2, c3 |].
    split; [exact K |]. split; [exact R | repeat split].
  - destruct (calculate_lens_succeeded data sh c c' S) as (c4 & L & ->).
    destruct (lens_solve_steps _ _ L) as (c1 & c2 & c3 & Steps).
    destruct (lens_solve_spec _ _ L) as (K & _ & R & _).
    destruct (finish_fields "lens" sh c4) as (-> & -> & -> & -> & -> & _).
    exists c4. split; [exact L |]. split; [now exists c1, c2, c3 |].
    split; [exact K |]. split; [exact R | repeat split].
Qed.

(** Whatever distance the formula step leaves in the calculator is, in a
    successful solve, the distance reported after rounding. *)
Lemma formula_result_reported ty sh (data : Data F)
    (c c1 c' : OpticsCalculator F) :
  (if is_str ty "mirror" then mirror_formula (start ty data sh c)
   else lens_formula (start ty data sh c)) = Done c1 ->
  solver ty data sh c = (true, c') ->
  reports (focal_length c1) (focal_length c')
  /\ reports (u c1) (u c') /\ reports (v c1) (v c').
Proof.
  intros E S.
  destruct (solver_succeeded ty sh data c c' S)
    as (c4 & _ & (d1 & d2 & d3 & Steps & _ & K2 & K3 & K4) & _ & _
        & -> & -> & -> & _).
  assert (D : d1 = c1).
  { destruct (is_str ty "mirror"); destruct Steps as (E1 & _);
      rewrite E in E1; now injection E1. }
  subst d1.
  destruct K2 as (Af & Au & Av & _), K3 as (Bf & Bu & Bv & _),
    K4 as (Cf & Cu & Cv & _).
  repeat split; apply keeps_reports; intros a Ea; auto.
Qed.

End Reporting.


(** ** Sign conventions *)

(** The sign convention of a mirror, on a nonzero focal length: a concave
    mirror gets [-|f|], a convex mirror [|f|]. *)
Lemma mirror_sign_convention_concave (data : Data float)
    (c : OpticsCalculator float) (f : float) :
  get_focal_length data = Some f -> (f =? 0)%float = false ->
  mirror_sign_convention concave (extract data c)
  = with_focal_length (Some (- abs f)%float) (extract data c).
Proof.
  intros G Z. unfold mirror_sign_convention, extract; cbn. rewrite G.
  destruct (0 <? f)%float eqn:P; [reflexivity |].
  unfold with_focal_length; cbn.
  now rewrite (B64Facts.opp_abs_not_positive f P Z).
Qed.

Lemma mirror_sign_convention_convex (data : Data float)
    (c : OpticsCalculator float) (f : float) :
  get_focal_length data = Some f -> (f =? 0)%float = false ->
  mirror_sign_convention convex (extract data c)
  = with_focal_length (Some (abs f)) (extract data c).
Proof.
  intros G Z. unfold mirror_sign_convention, extract; cbn. rewrite G.
  destruct (f <? 0)%float eqn:P; [reflexivity |].
  unfold with_focal_length; cbn.
  now rewrite (B64Facts.abs_not_negative f P Z).
Qed.


(** ** Solving a resolved or an over-determined calculator *)

Section Resolved.

Context {F : Type} `{PyFloat F}.

(** With all five values present, a nonzero u and a nonzero h1, the
    derivations change nothing. *)
Lemma mirror_solve_resolved (c : OpticsCalculator F) (f xu xv a b : F) :
  focal_length c = Some f -> u c = Some xu -> v c = Some xv ->
  h1 c = Some a -> h2 c = Some b ->
  f_eq xu f_zero = false -> f_eq a f_zero = false ->
  mirror_solve c = Done c.
Proof.
  intros Ef Eu Ev Ea Eb Zu Za.
  unfold mirror_solve, mirror_formula, mirror_magnification,
    mirror_distances_from_heights, mirror_default_height, py_div.
  rewrite Ef, Eu, Ev. cbn. rewrite Eu, Ev, Ea, Eb, Zu. cbn.
  rewrite Ea, Eb, Za, Eu, Ev. cbn. now rewrite Ea.
Qed.

Lemma lens_solve_resolved (c : OpticsCalculator F) (f xu xv a b : F) :
  focal_length c = Some f -> u c = Some xu -> v c = Some xv ->
  h1 c = Some a -> h2 c = Some b ->
  f_eq xu f_zero = false -> f_eq a f_zero = false ->
  lens_solve c = Done c.
Proof.
  intros Ef Eu Ev Ea Eb Zu Za.
  unfold lens_solve, lens_formula, lens_magnification,
    lens_distances_from_heights, lens_default_height, py_div.
  rewrite Ef, Eu, Ev. cbn. rewrite Eu, Ev, Ea, Eb, Zu. cbn.
  rewrite Ea, Eb, Za, Eu, Ev. cbn. now rewrite Ea.
Qed.


(** With f, u and v present, a nonzero u and a nonzero h1 (if any), the
    mirror derivations end normally unless the inference of h1 from h2
    divides by zero. *)
Lemma mirror_solve_triple (c : OpticsCalculator F) (f xu xv : F) :
  focal_length c = Some f -> u c = Some xu -> v c = Some xv ->
  f_eq xu f_zero = false ->
  (forall a, h1 c = Some a -> f_eq a f_zero = false) ->
  (exists c4, mirror_solve c = Done c4)
  <-> height_inference_fails mirror (as_data c) xu xv = false.
Proof.
  destruct c as [f0 xu0 xv0 [a|] [b|] es ws ic]; cbn;
    intros -> -> -> Zu Za;
    unfold height_inference_fails, magnification_of, mirror, mirror_solve,
      mirror_formula, mirror_magnification, mirror_distances_from_heights,
      mirror_default_height, py_div; cbn;
    try (pose proof (Za _ eq_refl) as Za'); clear Za;
    repeat match goal with
    | E : ?b = false |- context [if ?b then _ else _] => rewrite E; cbn
    end.
  - split; [reflexivity | intros _; eauto].
  - split; [reflexivity | intros _; eauto].
  - destruct (f_eq (f_quot (f_neg xv) xu) f_zero); cbn.
    + split; [intros [c4 E]; discriminate E | discriminate].
    + destruct (f_eq (f_quot b (f_quot (f_neg xv) xu)) f_zero); cbn.
      * split; [intros [c4 E]; discriminate E | discriminate].
      * split; [reflexivity | intros _; eauto].
  - split; [reflexivity | intros _; eauto].
Qed.

Lemma lens_solve_triple (c : OpticsCalculator F) (f xu xv : F) :
  focal_length c = Some f -> u c = Some xu -> v c = Some xv ->
  f_eq xu f_zero = false ->
  (forall a, h1 c = Some a -> f_eq a f_zero = false) ->
  (exists c4, lens_solve c = Done c4)
  <-> height_inference_fails lens (as_data c) xu xv = false.
Proof.
  destruct c as [f0 xu0 xv0 [a|] [b|] es ws ic]; cbn;
    intros -> -> -> Zu Za;
    unfold height_inference_fails, magnification_of, lens, lens_solve,
      lens_formula, lens_magnification, lens_distances_from_heights,
      lens_default_height, py_div; cbn;
    try (pose proof (Za _ eq_refl) as Za'); clear Za;
    repeat match goal with
    | E : ?b = false |- context [if ?b then _ else _] => rewrite E; cbn
    end.
  - split; [reflexivity | intros _; eauto].
  - split; [reflexivity | intros _; eauto].
  - destruct (f_eq (f_quot xv xu) f_zero); cbn.
    + split; [intros [c4 E]; discriminate E | discriminate].
    + destruct (f_eq (f_quot b (f_quot xv xu)) f_zero); cbn.
      * split; [intros [c4 E]; discriminate E | discriminate].
      * split; [reflexivity | intros _; eauto].
  - split; [reflexivity | intros _; eauto].
Qed.

End Resolved.

(** * The claims *)

(** C1.  Solving v from known (f, u), the mirror solver sets v to +inf if
    f < 0 and to -inf otherwise when |u - f| < 1e-6, and the lens solver
    sets v to +inf if f > 0 and to -inf otherwise when |u + f| < 1e-6;
    solving u from known (f, v), both use the threshold |v - f| < 1e-6
    with the same sign mapping (mirror: +inf iff f < 0; lens: +inf iff
    f > 0).  Outside the threshold the closed-form quotient is computed,
    and its division never raises.  Here f is the focal length the solver
    works with (for a mirror, after the sign convention), and each
    infinity case also appends its advisory to [errors].  The distance
    set by this step is the one a successful solve reports: rounded if
    finite, untouched if infinite. *)
Theorem focal_point_sign_mapping (c : OpticsCalculator float) (f x : float) :
  mirror_formula (with_f_u f x c) =
    Done (if (abs (x - f) <? B64.eps)%float then
            errors_append object_at_focal_point
              (with_v (Some (if (f <? 0)%float then infinity else neg_infinity))
                 (with_f_u f x c))
          else with_v (Some (f * x / (x - f))%float) (with_f_u f x c))
  /\ lens_formula (with_f_u f x c) =
    Done (if (abs (x + f) <? B64.eps)%float then
            errors_append object_at_focal_point
              (with_v (Some (if (0 <? f)%float then infinity else neg_infinity))
                 (with_f_u f x c))
          else with_v (Some (f * x / (x + f))%float) (with_f_u f x c))
  /\ mirror_formula (with_f_v f x c) =
    Done (if (abs (x - f) <? B64.eps)%float then
            errors_append image_at_focal_point
              (with_u (Some (if (f <? 0)%float then infinity else neg_infinity))
                 (with_f_v f x c))
          else with_u (Some (f * x / (x - f))%float) (with_f_v f x c))
  /\ lens_formula (with_f_v f x c) =
    Done (if (abs (x - f) <? B64.eps)%float then
            errors_append image_at_focal_point
              (with_u (Some (if (0 <? f)%float then infinity else neg_infinity))
                 (with_f_v f x c))
          else with_u (Some (f * x / (x - f))%float) (with_f_v f x c))
  /\ (forall ty sh data c1 c',
        (if is_str ty "mirror" then mirror_formula (start ty data sh c)
         else lens_formula (start ty data sh c)) = Done c1 ->
        solver ty data sh c = (true, c') ->
        reports (u c1) (u c') /\ reports (v c1) (v c'))
  /\ round_value (Some infinity) = Some infinity
  /\ round_value (Some neg_infinity) = Some neg_infinity.
Proof.
  split; [apply mirror_formula_f_u |].
  split; [apply lens_formula_f_u |].
  split; [apply mirror_formula_f_v |].
  split; [apply lens_formula_f_v |].
  split; [| split; reflexivity].
  intros ty sh data c1 c' E S.
  exact (proj2 (formula_result_reported ty sh data c c1 c' E S)).
Qed.

(** The convex lens with f = 20 and u = -20: the formula step sets
    v = +inf, and the solve reports it. *)
Lemma focal_point_sign_mapping_witness :
  let data := inputs_of (Some 20%float) (Some (-20)%float) None None None in
  let c1 := errors_append object_at_focal_point
              (with_v (Some infinity) (extract data reset_values)) in
  let c' := snd (calculate_lens data convex reset_values) in
  (lens_formula (start lens data convex reset_values) = Done c1
   /\ solver lens data convex reset_values = (true, c'))
  /\ v c' = Some infinity.
Proof.
  intros data c1 c'.
  assert (E : (if is_str lens "mirror"
               then mirror_formula (start lens data convex reset_values)
               else lens_formula (start lens data convex reset_values))
              = Done c1) by (vm_compute; reflexivity).
  assert (S : solver lens data convex reset_values = (true, c'))
    by (vm_compute; reflexivity).
  split; [split; [exact E | exact S] |].
  destruct (focal_point_sign_mapping reset_values 20%float (-20)%float)
    as (_ & _ & _ & _ & R & I & _).
  destruct (R lens convex data c1 c' E S) as (_ & Rv).
  rewrite (Rv infinity eq_refl). exact I.
Defined.

(** C2, at its own example (lens, convex, f = 20, u = -20) and at the same
    example with an image height: in the first the answer is successful
    and v is the infinity sentinel, but the advisory is in no field of the
    answer (the solver appended it to [errors], which a successful answer
    does not carry, and [warnings] is empty); in the second the solve is
    abandoned and the advisory comes back among the blocking errors. *)
Theorem focal_point_advisory_scenario (g : Renderer) :
  let r := calculate g
             (request_of lens convex
                (inputs_of (Some 20%float) (Some (-20)%float)
                   None None None)) in
  let r' := calculate g
              (request_of lens convex
                 (inputs_of (Some 20%float) (Some (-20)%float)
                    None None (Some 5%float))) in
  (succeeded r = true
   /\ option_map (@results_v float) (results_of r) = Some (JString "∞")
   /\ warnings_of r = []
   /\ errors (snd (calculate_lens
                     (inputs_of (Some 20%float) (Some (-20)%float)
                        None None None) convex reset_values))
      = [object_at_focal_point])
  /\ r' = Failure [object_at_focal_point; calculation_error].
Proof.
  vm_compute. repeat split.
Qed.

(** C3, as stated, fails in its example: a concave mirror with f = +50 is
    admitted with no warning at all (the mirror warning is for f <= 0),
    and solved with f = -50. *)
Lemma concave_mirror_f50_no_warning :
  let data := inputs_of (Some 50%float) (Some (-20)%float) None None None in
  let r := validate_inputs data mirror concave reset_values in
  fst r = true
  /\ warnings (snd r) = []
  /\ focal_length (snd (calculate_mirror data concave (snd r)))
     = Some (-50)%float.
Proof.
  vm_compute. repeat split.
Qed.

(** C3 (amended).  For a mirror with a supplied nonzero focal length f the
    sign convention runs before any formula: a concave mirror is solved
    as if f were [-|f|], a convex mirror as if f were [|f|].  A lens
    solver starts from the supplied f and, when it succeeds, reports that
    f rounded; a lens focal length of either sign adds no error in
    validation.  The mirror warning is issued exactly when f <= 0, so a
    concave mirror with f = +50 is admitted without warning. *)
Theorem sign_convention_before_formulas (data : Data float)
    (c : OpticsCalculator float) (f : float) :
  get_focal_length data = Some f -> (f =? 0)%float = false ->
  (calculate_mirror data concave c
   = calculate_mirror (set_focal_length (- abs f)%float data) concave c
   /\ focal_length (mirror_sign_convention concave (extract data c))
      = Some (- abs f)%float)
  /\ (calculate_mirror data convex c
      = calculate_mirror (set_focal_length (abs f) data) convex c
      /\ focal_length (mirror_sign_convention convex (extract data c))
         = Some (abs f))
  /\ (forall sh c',
        focal_length (extract data c) = Some f
        /\ (calculate_lens data sh c = (true, c') ->
            focal_length c' = round_value (Some f))
        /\ errors (check_focal_length data lens sh c) = errors c)
  /\ (forall sh,
        warnings (check_focal_length data mirror sh c)
        = if (f <=? 0)%float then
            warnings c
            ++ [("Using absolute value of focal length for "
                 ++ format_str sh ++ " mirror")%string]
          else warnings c).
Proof.
  intros G Z. split; [| split; [| split]].
  - rewrite (mirror_sign_convention_concave data c f G Z). split; [| reflexivity].
    unfold calculate_mirror.
    rewrite (mirror_sign_convention_concave data c f G Z).
    unfold mirror_sign_convention, extract; cbn.
    now rewrite B64Facts.opp_abs_never_positive.
  - rewrite (mirror_sign_convention_convex data c f G Z). split; [| reflexivity].
    unfold calculate_mirror.
    rewrite (mirror_sign_convention_convex data c f G Z).
    unfold mirror_sign_convention, extract; cbn.
    now rewrite B64Facts.abs_never_negative.
  - intros sh c'. split; [exact G |]. split.
    + intros S. destruct (calculate_lens_succeeded data sh c c' S) as (c4 & L & ->).
      destruct (lens_solve_spec _ _ L) as ((K & _) & _).
      destruct (finish_fields "lens" sh c4) as (-> & _).
      now rewrite (K f G).
    + unfold check_focal_length. rewrite G. cbn in Z |- *. rewrite Z.
      cbn. destruct (is_str sh "convex" && (f <=? 0)%float); [reflexivity |].
      destruct (is_str sh "concave" && (0 <=? f)%float); reflexivity.
  - intros sh. unfold check_focal_length. rewrite G. cbn in Z |- *. rewrite Z.
    cbn. destruct (f <=? 0)%float; reflexivity.
Qed.

(** The concave mirror with f = +50 and u = -20: solved as f = -50, and
    validation leaves the warnings empty. *)
Lemma sign_convention_before_formulas_witness :
  let data := inputs_of (Some 50%float) (Some (-20)%float) None None None in
  (get_focal_length data = Some 50%float /\ (50 =? 0)%float = false)
  /\ calculate_mirror data concave reset_values
     = calculate_mirror (set_focal_length (-50)%float data) concave reset_values
  /\ warnings (check_focal_length data mirror concave reset_values) = [].
Proof.
  intros data.
  pose proof (sign_convention_before_formulas data reset_values 50%float
                eq_refl eq_refl) as ((A & _) & _ & _ & D).
  split; [split; reflexivity |]. split; [exact A | exact (D concave)].
Defined.

(** C4, as stated, fails: the pair {u, h1} passes validation and the
    solve succeeds, yet f, v and h2 stay unknown. *)
Lemma u_h1_alone_unresolved :
  let data := inputs_of None (Some (-20)%float) None (Some 5%float) None in
  let r := validate_inputs data mirror concave reset_values in
  let s := calculate_mirror data concave (snd r) in
  fst r = true /\ fst s = true
  /\ focal_length (snd s) = None /\ v (snd s) = None /\ h2 (snd s) = None.
Proof.
  vm_compute. repeat split.
Qed.

(** C4 (amended).  In a successful solve (mirror or lens) no derivation
    step overwrites a value that is already present, supplied or
    computed; the only changes to a supplied value are the mirror's sign
    convention on f and the final rounding, so every supplied value is
    reported rounded.  All five values are resolved exactly when at
    least two of f, u, v are supplied. *)
Theorem solve_keeps_and_resolves {F : Type} `{PyFloat F}
    (ty sh : option string) (data : Data F) (c c' : OpticsCalculator F) :
  solver ty data sh c = (true, c') ->
  (exists c4,
     steps_keep ty (start ty data sh c) c4
     /\ focal_length c' = round_value (focal_length c4)
     /\ u c' = round_value (u c4) /\ v c' = round_value (v c4)
     /\ h1 c' = round_value (h1 c4) /\ h2 c' = round_value (h2 c4))
  /\ reports (focal_length (start ty data sh c)) (focal_length c')
  /\ reports (get_u data) (u c') /\ reports (get_v data) (v c')
  /\ reports (get_h1 data) (h1 c') /\ reports (get_h2 data) (h2 c')
  /\ resolved c'
     = (2 <=? given (get_focal_length data) + given (get_u data)
              + given (get_v data))%nat.
Proof.
  intros S.
  destruct (solver_succeeded ty sh data c c' S)
    as (c4 & _ & Steps & (Kf & Ku & Kv & Ka & Kb) & R
        & Ef & Eu & Ev & Ea & Eb).
  destruct (start_fields ty sh data c) as (Su & Sv & Sa & Sb & _).
  rewrite Su in Ku. rewrite Sv in Kv. rewrite Sa in Ka. rewrite Sb in Kb.
  rewrite Ef, Eu, Ev, Ea, Eb.
  split; [exists c4; repeat split; assumption |].
  repeat split; try (now apply keeps_reports).
  rewrite <- R. unfold resolved.
  assert (P : forall x, present (round_value x) = present x).
  { intros [a|]; [cbn; destruct (f_isinf a) |]; reflexivity. }
  now rewrite Ef, Eu, Ev, Ea, Eb, !P.
Qed.

(** The concave mirror with f = -50 and u = -20: u is reported rounded
    and all five values are resolved. *)
Lemma solve_keeps_and_resolves_witness :
  let data := inputs_of (Some (-50)%float) (Some (-20)%float) None None None in
  let c' := snd (calculate_mirror data concave reset_values) in
  solver mirror data concave reset_values = (true, c')
  /\ reports (get_u data) (u c')
  /\ resolved c' = true.
Proof.
  intros data c'.
  assert (S : solver mirror data concave reset_values = (true, c'))
    by (vm_compute; reflexivity).
  pose proof (solve_keeps_and_resolves mirror concave data reset_values c' S)
    as (_ & _ & U & _ & _ & _ & R).
  split; [exact S |]. split; [exact U | exact R].
Defined.

(** C5, as stated, fails: with no optic type selected, validation stops
    at the selection check, and a supplied [u = 5] is rejected without the
    object-distance error. *)
Lemma nonnegative_u_without_selection :
  let r := validate_inputs (inputs_of None (Some 5%float) None (Some 5%float) None)
             None concave reset_values in
  fst r = false
  /\ errors (snd r) = [missing_selection]
  /\ ~ In invalid_object_distance (errors (snd r)).
Proof.
  cbn. repeat split. intros [E | []]. discriminate E.
Qed.

(** C5 (amended).  When the object distance is supplied with [u >= 0],
    validation fails whatever the other numeric inputs are: with both
    optic type and shape selected the object-distance error is among the
    errors, for every type and shape; with a selection missing the only
    error is the missing selection.  In both cases the route answers with
    the validation errors and no solver runs. *)
Theorem nonnegative_u_rejected
    {F : Type} `{PyFloat F}
    (generate_diagram :
       OpticsCalculator F -> option string -> option string -> option string)
    (data : Data F) (ty sh : option string)
    (c : OpticsCalculator F) (xu : F) :
  get_u data = Some xu -> f_ge xu f_zero = true ->
  let r := validate_inputs data ty sh c in
  fst r = false
  /\ (truthy ty = true -> truthy sh = true ->
      In invalid_object_distance (errors (snd r)))
  /\ (truthy ty && truthy sh = false ->
      errors (snd r) = [missing_selection])
  /\ calculate generate_diagram
       {| optic_type := ty; shape := sh; inputs := data |}
     = Failure (errors (snd (validate_inputs data ty sh reset_values))).
Proof.
  intros U G.
  assert (V : forall c0, fst (validate_inputs data ty sh c0) = false).
  { intros c0. unfold validate_inputs.
    destruct (negb (truthy ty) || negb (truthy sh)); [reflexivity |].
    cbn [fst].
    pose proof (check_u_rejects data
                  (check_focal_length data ty sh
                     (with_warnings [] (with_errors [] c0))) xu U G) as I.
    destruct (errors _); [destruct I | reflexivity]. }
  cbv zeta. repeat split.
  - apply V.
  - intros T S. unfold validate_inputs. rewrite T, S. cbn [negb orb snd].
    now apply check_u_rejects with (xu := xu).
  - intros T. unfold validate_inputs.
    destruct (truthy ty), (truthy sh); try discriminate T; reflexivity.
  - unfold calculate. cbn [optic_type shape inputs].
    specialize (V reset_values).
    destruct (validate_inputs data ty sh reset_values) as [ok c1].
    cbn in V |- *. now rewrite V.
Qed.

(** Mirror, concave, f = 10 and u = 5: rejected with the object-distance
    error, and the route answers with the validation errors. *)
Lemma nonnegative_u_rejected_witness :
  let data := inputs_of (Some 10%float) (Some 5%float) None None None in
  let r := validate_inputs data mirror concave reset_values in
  (get_u data = Some 5%float /\ f_ge 5%float f_zero = true)
  /\ fst r = false
  /\ In invalid_object_distance (errors (snd r))
  /\ calculate (fun _ _ _ => None) (request_of mirror concave data)
     = Failure (errors (snd r)).
Proof.
  intros data r.
  pose proof (nonnegative_u_rejected (fun _ _ _ => None) data mirror concave
                reset_values 5%float eq_refl eq_refl) as (A & B & _ & D).
  split; [split; reflexivity |].
  split; [exact A |]. split; [exact (B eq_refl eq_refl) | exact D].
Defined.




(** C7.  Mirror, concave, f = -50 and u = -20: the request succeeds with
    f = -50, u = -20, v = 33.333, h1 = 15.0, h2 = 25.0, and the image is
    virtual, erect and magnified. *)
Theorem concave_mirror_scenario (g : Renderer) :
  let r := calculate g
             (request_of mirror concave
                (inputs_of (Some (-50)%float) (Some (-20)%float)
                   None None None)) in
  succeeded r = true
  /\ results_of r
     = Some {| results_focal_length := JNumber (-50)%float;
               results_u := JNumber (-20)%float;
               results_v := JNumber 33.333%float;
               results_h1 := JNumber 15%float;
               results_h2 := JNumber 25%float |}
  /\ option_map nature (characteristics_of r) = Some "Virtual"%string
  /\ option_map orientation (characteristics_of r) = Some "Erect"%string
  /\ option_map size (characteristics_of r) = Some "Magnified"%string.
Proof.
  vm_compute. repeat split.
Qed.


(** The lens path of the same round trip, at f = 20 and u = -40: v = 40
    is exact, and solving f from (u, v) returns -20, because the quotient
    divides by [v - u]. *)
Lemma lens_round_trip_sign :
  let solved := calculate_lens
                  (inputs_of (Some 20%float) (Some (-40)%float) None None None)
                  convex reset_values in
  let again := calculate_lens
                 (inputs_of None (Some (-40)%float) (v (snd solved)) None None)
                 convex reset_values in
  fst solved = true /\ v (snd solved) = Some 40%float
  /\ fst again = true /\ focal_length (snd again) = Some (-20)%float.
Proof.
  vm_compute. repeat split.
Qed.






(** C10, as stated, fails: mirror, convex, f = 10, u = -20, v = 0 and
    h2 = 5 pass validation, and the calculation is reported failed: the
    magnification -v/u is zero and inferring h1 = h2 / m divides by it. *)
Lemma supplied_triple_can_fail :
  let data := inputs_of (Some 10%float) (Some (-20)%float) (Some 0%float)
                None (Some 5%float) in
  fst (validate_inputs data mirror convex reset_values) = true
  /\ forall g : Renderer,
       calculate g (request_of mirror convex data)
       = Failure [calculation_error].
Proof.
  split; [vm_compute; reflexivity |]. intros g. vm_compute. reflexivity.
Qed.

(** C10 (amended).  For every validated input in which f, u and v are all
    supplied, the solver makes no consistency check: the formula step
    leaves the calculator as it is, and whenever the calculation is
    reported successful, u and v are returned rounded and f is returned
    rounded after the mirror sign convention, whether or not the triple
    satisfies the mirror or lens formula.  The calculation is reported
    successful except when h2 is supplied without h1 and the magnification
    m, or the inferred h1 = h2 / m, is zero. *)
Theorem supplied_triple_unchecked (ty sh : option string) (data : Data float)
    (c c1 : OpticsCalculator float) (f xu xv : float) :
  validate_inputs data ty sh c = (true, c1) ->
  get_focal_length data = Some f -> get_u data = Some xu ->
  get_v data = Some xv ->
  let c0 := start ty data sh c1 in
  (if is_str ty "mirror" then mirror_formula c0 = Done c0
   else lens_formula c0 = Done c0)
  /\ fst (solver ty data sh c1)
     = negb (height_inference_fails ty data xu xv)
  /\ (forall c', solver ty data sh c1 = (true, c') ->
        focal_length c' = round_value (focal_length c0)
        /\ u c' = round_value (Some xu) /\ v c' = round_value (Some xv)).
Proof.
  intros V Ef Eu Ev c0.
  destruct (validate_inputs_passed data ty sh c c1 V)
    as (_ & _ & _ & Vu & Va & _).
  assert (Zu : (xu =? 0)%float = false)
    by exact (B64Facts.negative_nonzero xu (Vu xu Eu)).
  assert (Za : forall a, h1 c0 = Some a -> f_eq a f_zero = false).
  { intros a E. apply B64Facts.positive_nonzero, Va.
    destruct (start_fields ty sh data c1) as (_ & _ & <- & _). exact E. }
  destruct (start_fields ty sh data c1) as (Su & Sv & Sa & Sb & _ & Sf).
  destruct (Sf f Ef) as (f' & Ef'). fold c0 in Su, Sv, Sa, Sb, Ef'.
  rewrite Eu in Su. rewrite Ev in Sv.
  assert (D : height_inference_fails ty (as_data c0) xu xv
              = height_inference_fails ty data xu xv).
  { unfold height_inference_fails, as_data; cbn. now rewrite Sa, Sb. }
  unfold solver, start in *.
  destruct (is_str ty "mirror") eqn:T.
  - assert (M : forall d, height_inference_fails ty d xu xv
                          = height_inference_fails mirror d xu xv).
    { intros d. unfold height_inference_fails, magnification_of.
      now rewrite T. }
    pose proof (mirror_solve_triple c0 f' xu xv Ef' Su Sv Zu Za) as I.
    rewrite <- M, D in I.
    split; [| split].
    + unfold mirror_formula. now rewrite Su, Sv, Ef'.
    + unfold calculate_mirror, mirror_body. fold c0.
      destruct (mirror_solve c0) as [c4 | c4] eqn:L; cbn.
      * now rewrite (proj1 I (ex_intro _ c4 eq_refl)).
      * destruct (height_inference_fails ty data xu xv); [reflexivity |].
        destruct (proj2 I eq_refl) as (c5 & E). discriminate E.
    + intros c' S.
      destruct (calculate_mirror_succeeded data sh c1 c' S) as (c4 & L & ->).
      fold c0 in L.
      destruct (mirror_solve_spec _ _ L) as ((Kf & Ku & Kv & _) & _).
      destruct (finish_fields "mirror" sh c4) as (-> & -> & -> & _).
      now rewrite (Kf f' Ef'), (Ku xu Su), (Kv xv Sv), Ef'.
  - assert (M : forall d, height_inference_fails ty d xu xv
                          = height_inference_fails lens d xu xv).
    { intros d. unfold height_inference_fails, magnification_of.
      now rewrite T. }
    pose proof (lens_solve_triple c0 f' xu xv Ef' Su Sv Zu Za) as I.
    rewrite <- M, D in I.
    split; [| split].
    + unfold lens_formula. now rewrite Su, Sv, Ef'.
    + unfold calculate_lens, lens_body. fold c0.
      destruct (lens_solve c0) as [c4 | c4] eqn:L; cbn.
      * now rewrite (proj1 I (ex_intro _ c4 eq_refl)).
      * destruct (height_inference_fails ty data xu xv); [reflexivity |].
        destruct (proj2 I eq_refl) as (c5 & E). discriminate E.
    + intros c' S.
      destruct (calculate_lens_succeeded data sh c1 c' S) as (c4 & L & ->).
      fold c0 in L.
      destruct (lens_solve_spec _ _ L) as ((Kf & Ku & Kv & _) & _).
      destruct (finish_fields "lens" sh c4) as (-> & -> & -> & _).
      now rewrite (Kf f' Ef'), (Ku xu Su), (Kv xv Sv), Ef'.
Qed.

(** Mirror, convex, f = 10, u = -20, v = 7 (1/f = 0.1 but 1/u + 1/v is not):
    reported successful, with v returned as supplied. *)
Lemma supplied_triple_unchecked_witness :
  let data := inputs_of (Some 10%float) (Some (-20)%float) (Some 7%float)
                None None in
  let c1 := snd (validate_inputs data mirror convex reset_values) in
  (validate_inputs data mirror convex reset_values = (true, c1)
   /\ get_focal_length data = Some 10%float
   /\ get_u data = Some (-20)%float /\ get_v data = Some 7%float)
  /\ fst (solver mirror data convex c1) = true
  /\ v (snd (solver mirror data convex c1)) = Some 7%float.
Proof.
  intros data c1.
  assert (V : validate_inputs data mirror convex reset_values = (true, c1))
    by (vm_compute; reflexivity).
  split; [repeat split; exact V |].
  destruct (supplied_triple_unchecked mirror convex data reset_values c1
              10%float (-20)%float 7%float V eq_refl eq_refl eq_refl)
    as (_ & S & K).
  split; [exact S |].
  destruct (solver mirror data convex c1) as [ok c'] eqn:E.
  cbn [fst snd] in *. cbn in S. subst ok.
  destruct (K c' eq_refl) as (_ & _ & Kv).
  rewrite Kv. vm_compute. reflexivity.
Defined.

(** * Further properties *)

(** ** Validation *)

Section ValidationMore.

Context {F : Type} `{PyFloat F}.

(** [validate_inputs] in one piece: the diagnostics depend on the inputs
    and the selections only, and the rest of the calculator is left as it
    is. *)
Lemma validate_inputs_result (data : Data F) (ty sh : option string)
    (c : OpticsCalculator F) :
  validate_inputs data ty sh c =
  if truthy ty && truthy sh then
    ((length (validation_errors data) =? 0)%nat,
     with_warnings (sign_warnings data ty sh)
       (with_errors (validation_errors data) c))
  else (false, with_warnings [] (with_errors [missing_selection] c)).
Proof.
  unfold validate_inputs, validation_errors, focal_length_errors, u_errors,
    h1_errors, count_errors, sign_warnings, check_given_values, check_h1,
    check_u, check_focal_length.
  destruct (truthy ty), (truthy sh); try reflexivity. cbn [negb orb andb].
  destruct data as [[f|] [xu|] [xv|] [a|] [b|]]; cbn;
    repeat match goal with
    | |- context [if ?b then _ else _] =>
        match type of b with bool => destruct b; cbn end
    end; reflexivity.
Qed.

Lemma in_focal_length_errors (data : Data F) (e : string) :
  In e (focal_length_errors data) <->
  e = zero_focal_length
  /\ exists f, get_focal_length data = Some f /\ f_eq f f_zero = true.
Proof.
  unfold focal_length_errors.
  destruct (get_focal_length data) as [f|]; [destruct (f_eq f f_zero) eqn:Z |];
    cbn; split; try tauto.
  - intros [<- | []]. split; [reflexivity | now exists f].
  - intros (-> & _). now left.
  - intros (_ & f0 & [= <-] & E). congruence.
  - intros (_ & f0 & E & _). discriminate E.
Qed.

Lemma in_u_errors (data : Data F) (e : string) :
  In e (u_errors data) <->
  e = invalid_object_distance
  /\ exists x, get_u data = Some x /\ f_ge x f_zero = true.
Proof.
  unfold u_errors.
  destruct (get_u data) as [x|]; [destruct (f_ge x f_zero) eqn:Z |];
    cbn; split; try tauto.
  - intros [<- | []]. split; [reflexivity | now exists x].
  - intros (-> & _). now left.
  - intros (_ & x0 & [= <-] & E). congruence.
  - intros (_ & x0 & E & _). discriminate E.
Qed.

Lemma in_h1_errors (data : Data F) (e : string) :
  In e (h1_errors data) <->
  e = invalid_object_height
  /\ exists x, get_h1 data = Some x /\ f_le x f_zero = true.
Proof.
  unfold h1_errors.
  destruct (get_h1 data) as [x|]; [destruct (f_le x f_zero) eqn:Z |];
    cbn; split; try tauto.
  - intros [<- | []]. split; [reflexivity | now exists x].
  - intros (-> & _). now left.
  - intros (_ & x0 & [= <-] & E). congruence.
  - intros (_ & x0 & E & _). discriminate E.
Qed.

Lemma in_count_errors (data : Data F) (e : string) :
  In e (count_errors data) <->
  e = insufficient_inputs /\ (given_values data < 2)%nat.
Proof.
  unfold count_errors.
  destruct (given_values data <? 2)%nat eqn:G; cbn; split; try tauto.
  - intros [<- | []]. split; [reflexivity | now apply Nat.ltb_lt].
  - intros (-> & _). now left.
  - intros (_ & L). apply Nat.ltb_lt in L. congruence.
Qed.

Lemma in_validation_errors (data : Data F) (e : string) :
  In e (validation_errors data) <->
  (e = zero_focal_length
   /\ exists f, get_focal_length data = Some f /\ f_eq f f_zero = true)
  \/ (e = invalid_object_distance
      /\ exists x, get_u data = Some x /\ f_ge x f_zero = true)
  \/ (e = invalid_object_height
      /\ exists x, get_h1 data = Some x /\ f_le x f_zero = true)
  \/ (e = insufficient_inputs /\ (given_values data < 2)%nat).
Proof.
  unfold validation_errors.
  now rewrite !in_app_iff, in_focal_length_errors, in_u_errors,
    in_h1_errors, in_count_errors.
Qed.

End ValidationMore.

(** X1.  With optic type and shape selected, validation reports every
    failed check, whatever else is wrong with the input: each of the four
    error messages is in the list exactly when its own condition holds
    (f == 0; u >= 0; h1 <= 0; fewer than two values supplied), and the
    list holds nothing else. *)
Theorem validation_reports_every_error {F : Type} `{PyFloat F}
    (data : Data F) (ty sh : option string) (c : OpticsCalculator F) :
  truthy ty = true -> truthy sh = true ->
  let errs := errors (snd (validate_inputs data ty sh c)) in
  (In zero_focal_length errs <->
   exists f, get_focal_length data = Some f /\ f_eq f f_zero = true)
  /\ (In invalid_object_distance errs <->
      exists x, get_u data = Some x /\ f_ge x f_zero = true)
  /\ (In invalid_object_height errs <->
      exists x, get_h1 data = Some x /\ f_le x f_zero = true)
  /\ (In insufficient_inputs errs <-> (given_values data < 2)%nat)
  /\ (forall e, In e errs ->
        e = zero_focal_length \/ e = invalid_object_distance
        \/ e = invalid_object_height \/ e = insufficient_inputs).
Proof.
  intros T S. rewrite validate_inputs_result, T, S.
  cbn [andb snd]. cbn [errors with_warnings with_errors]. cbv zeta.
  split; [| split; [| split; [| split]]]; try rewrite in_validation_errors.
  - split.
    + intros [(_ & E) | [(D & _) | [(D & _) | (D & _)]]];
        [exact E | discriminate D ..].
    + intros E. left. now split.
  - split.
    + intros [(D & _) | [(_ & E) | [(D & _) | (D & _)]]];
        [discriminate D | exact E | discriminate D ..].
    + intros E. right. left. now split.
  - split.
    + intros [(D & _) | [(D & _) | [(_ & E) | (D & _)]]];
        [discriminate D .. | exact E | discriminate D].
    + intros E. right. right. left. now split.
  - split.
    + intros [(D & _) | [(D & _) | [(D & _) | (_ & E)]]];
        [discriminate D .. | exact E].
    + intros E. right. right. right. now split.
  - intros e I. apply in_validation_errors in I. tauto.
Qed.

(** The input f = 0, u = 5, h1 = -1 of a concave mirror: all three checks
    are reported together. *)
Lemma validation_reports_every_error_witness :
  let data := inputs_of (Some 0%float) (Some 5%float) None
                (Some (-1)%float) None in
  (truthy mirror = true /\ truthy concave = true)
  /\ errors (snd (validate_inputs data mirror concave reset_values))
     = [zero_focal_length; invalid_object_distance; invalid_object_height]
  /\ In invalid_object_height
       (errors (snd (validate_inputs data mirror concave reset_values))).
Proof.
  intros data. split; [split; reflexivity |]. split; [reflexivity |].
  destruct (validation_reports_every_error data mirror concave reset_values
              eq_refl eq_refl) as (_ & _ & (_ & I) & _).
  apply I. exists (-1)%float. split; reflexivity.
Defined.

(** X2.  Validation accepts an input exactly when both selections are
    made, a supplied f is not zero, a supplied u is not [>= 0], a supplied
    h1 is not [<= 0], and at least two of the five values are supplied;
    v and h2 only count. *)
Theorem validation_accepts_iff {F : Type} `{PyFloat F}
    (data : Data F) (ty sh : option string) (c : OpticsCalculator F) :
  fst (validate_inputs data ty sh c) = true <->
  truthy ty = true /\ truthy sh = true
  /\ (forall f, get_focal_length data = Some f -> f_eq f f_zero = false)
  /\ (forall x, get_u data = Some x -> f_ge x f_zero = false)
  /\ (forall a, get_h1 data = Some a -> f_le a f_zero = false)
  /\ (2 <= given_values data)%nat.
Proof.
  split.
  - destruct (validate_inputs data ty sh c) as [ok c1] eqn:V. cbn.
    intros ->.
    destruct (validate_inputs_passed data ty sh c c1 V)
      as (T & S & Vf & Vu & Va & G & _).
    repeat split; assumption.
  - intros (T & S & Vf & Vu & Va & G).
    rewrite validate_inputs_result, T, S. cbn [andb fst].
    unfold validation_errors, focal_length_errors, u_errors, h1_errors,
      count_errors.
    destruct (get_focal_length data) as [f|];
      [rewrite (Vf f eq_refl) |];
      (destruct (get_u data) as [x|]; [rewrite (Vu x eq_refl) |]);
      (destruct (get_h1 data) as [a|]; [rewrite (Va a eq_refl) |]);
      apply Nat.ltb_ge in G; rewrite G; reflexivity.
Qed.

(** The pair f = -50, u = -20 of the mirror scenario is accepted. *)
Lemma validation_accepts_iff_witness :
  let data := inputs_of (Some (-50)%float) (Some (-20)%float)
                None None None in
  fst (validate_inputs data mirror concave reset_values) = true
  /\ (2 <= given_values data)%nat.
Proof.
  intros data.
  assert (V : fst (validate_inputs data mirror concave reset_values) = true)
    by reflexivity.
  destruct (proj1 (validation_accepts_iff data mirror concave reset_values)
              V) as (_ & _ & _ & _ & _ & G).
  split; [exact V | exact G].
Defined.

(** X3.  Validation only reads f, u and h1, and whether v and h2 are
    supplied: two inputs that agree on these get the same verdict, errors
    and warnings, whatever the values of v and h2 and whatever
    diagnostics the calculator held before.  It never changes the five
    values of the calculator. *)
Theorem validation_reads_f_u_h1 {F : Type} `{PyFloat F}
    (data data' : Data F) (ty sh : option string)
    (c c' : OpticsCalculator F) :
  get_focal_length data = get_focal_length data' ->
  get_u data = get_u data' -> get_h1 data = get_h1 data' ->
  present (get_v data) = present (get_v data') ->
  present (get_h2 data) = present (get_h2 data') ->
  let r := validate_inputs data ty sh c in
  let r' := validate_inputs data' ty sh c' in
  (fst r = fst r' /\ errors (snd r) = errors (snd r')
   /\ warnings (snd r) = warnings (snd r'))
  /\ focal_length (snd r) = focal_length c /\ u (snd r) = u c
  /\ v (snd r) = v c /\ h1 (snd r) = h1 c /\ h2 (snd r) = h2 c.
Proof.
  intros Ef Eu Ea Pv Pb. cbv zeta. rewrite !validate_inputs_result.
  assert (G : given_values data = given_values data').
  { unfold given_values. rewrite Ef, Eu, Ea.
    destruct (get_v data), (get_v data'), (get_h2 data), (get_h2 data');
      try discriminate; reflexivity. }
  assert (E : validation_errors data = validation_errors data').
  { unfold validation_errors, focal_length_errors, u_errors, h1_errors,
      count_errors. now rewrite Ef, Eu, Ea, G. }
  assert (W : sign_warnings data ty sh = sign_warnings data' ty sh).
  { unfold sign_warnings. now rewrite Ef. }
  rewrite E, W. destruct (truthy ty && truthy sh); repeat split.
Qed.

(** Changing v from 30 to -7 and the stored errors changes nothing. *)
Lemma validation_reads_f_u_h1_witness :
  let data := inputs_of None (Some 5%float) (Some 30%float) None None in
  let data' := inputs_of None (Some 5%float) (Some (-7)%float) None None in
  let c' := errors_append calculation_error reset_values in
  (get_focal_length data = get_focal_length data'
   /\ get_u data = get_u data' /\ get_h1 data = get_h1 data'
   /\ present (get_v data) = present (get_v data')
   /\ present (get_h2 data) = present (get_h2 data'))
  /\ errors (snd (validate_inputs data mirror concave reset_values))
     = errors (snd (validate_inputs data' mirror concave c')).
Proof.
  intros data data' c'. split; [repeat split |].
  exact (proj1 (proj2 (proj1
           (validation_reads_f_u_h1 data data' mirror concave
              reset_values c' eq_refl eq_refl eq_refl eq_refl eq_refl)))).
Defined.

(** ** The diagnostics of a solve *)

Section Diagnostics.

Context {F : Type} `{PyFloat F}.

Ltac run_outcome :=
  intros c; destruct c as [[f|] [xu|] [xv|] [a|] [b|] es ws ic];
  unfold mirror_solve, lens_solve, mirror_formula, mirror_magnification,
    mirror_distances_from_heights, mirror_default_height,
    lens_formula, lens_magnification, lens_distances_from_heights,
    lens_default_height, py_div, bind; simpl;
  repeat (match goal with
          | |- context [if ?b then _ else _] =>
              match type of b with bool => destruct b end
          end; simpl);
  (split; [reflexivity |]); (split; [reflexivity |]);
  first [ left; rewrite ?app_nil_r; reflexivity
        | right; left; repeat split; reflexivity
        | right; right; repeat split; reflexivity ].

(** However the derivations end, normally or by the exception, they leave
    the warnings and the stored classification alone, and the errors grow
    by at most one message: the advisory of the focal point branch that
    the formula step took. *)
Lemma mirror_solve_diagnostics :
  forall c : OpticsCalculator F,
    warnings (state_of (mirror_solve c)) = warnings c
    /\ image_characteristics (state_of (mirror_solve c))
       = image_characteristics c
    /\ (errors (state_of (mirror_solve c)) = errors c
        \/ (errors (state_of (mirror_solve c))
              = errors c ++ [object_at_focal_point]
            /\ v c = None
            /\ present (focal_length c) && present (u c) = true)
        \/ (errors (state_of (mirror_solve c))
              = errors c ++ [image_at_focal_point]
            /\ u c = None
            /\ present (focal_length c) && present (v c) = true)).
Proof.
  run_outcome.
Qed.

Lemma lens_solve_diagnostics :
  forall c : OpticsCalculator F,
    warnings (state_of (lens_solve c)) = warnings c
    /\ image_characteristics (state_of (lens_solve c))
       = image_characteristics c
    /\ (errors (state_of (lens_solve c)) = errors c
        \/ (errors (state_of (lens_solve c))
              = errors c ++ [object_at_focal_point]
            /\ v c = None
            /\ present (focal_length c) && present (u c) = true)
        \/ (errors (state_of (lens_solve c))
              = errors c ++ [image_at_focal_point]
            /\ u c = None
            /\ present (focal_length c) && present (v c) = true)).
Proof.
  run_outcome.
Qed.

End Diagnostics.

Section SolverDiagnostics.

Context {F : Type} `{PyFloat F}.

Lemma finish_errors (ty : string) (sh : option string)
    (c : OpticsCalculator F) :
  errors (finish ty sh c) = errors c.
Proof.
  unfold finish.
  destruct (analyze_fields ty sh (_round_values c))
    as (_ & _ & _ & _ & _ & -> & _).
  reflexivity.
Qed.

(** The state the derivations start from has the diagnostics of the
    calculator, the supplied u and v, and a focal length exactly when one
    was supplied. *)
Lemma start_diagnostics ty sh (data : Data F) (c : OpticsCalculator F) :
  errors (start ty data sh c) = errors c
  /\ warnings (start ty data sh c) = warnings c
  /\ present (focal_length (start ty data sh c))
     = present (get_focal_length data).
Proof.
  unfold start, mirror_sign_convention, extract.
  destruct (is_str ty "mirror"); cbn; [| repeat split].
  destruct (get_focal_length data) as [f|]; [| repeat split].
  destruct (is_str sh "concave" && f_gt f f_zero);
    [| destruct (is_str sh "convex" && f_lt f f_zero)]; repeat split.
Qed.

Lemma start_characteristics ty sh (data : Data F) (c : OpticsCalculator F) :
  image_characteristics (start ty data sh c) = image_characteristics c.
Proof.
  unfold start, mirror_sign_convention, extract.
  destruct (is_str ty "mirror"); cbn; [| reflexivity].
  destruct (get_focal_length data) as [f|]; [| reflexivity].
  destruct (is_str sh "concave" && f_gt f f_zero);
    [| destruct (is_str sh "convex" && f_lt f f_zero)]; reflexivity.
Qed.

Lemma solver_outcome ty sh (data : Data F) (c : OpticsCalculator F) :
  solver ty data sh c
  = (if is_str ty "mirror" then
       match mirror_solve (start ty data sh c) with
       | Done c4 => (true, finish "mirror" sh c4)
       | ZeroDivisionError c4 => (false, errors_append calculation_error c4)
       end
     else
       match lens_solve (start ty data sh c) with
       | Done c4 => (true, finish "lens" sh c4)
       | ZeroDivisionError c4 => (false, errors_append calculation_error c4)
       end).
Proof.
  unfold solver, start, calculate_mirror, calculate_lens, mirror_body,
    lens_body, finish.
  destruct (is_str ty "mirror").
  - now destruct (mirror_solve _).
  - now destruct (lens_solve _).
Qed.

(** The diagnostics after a solve, successful or not. *)
Lemma solver_errors_grow
    (ty sh : option string) (data : Data F) (c : OpticsCalculator F) :
  let r := solver ty data sh c in
  warnings (snd r) = warnings c
  /\ exists adv,
       errors (snd r)
       = errors c ++ adv ++ (if fst r then [] else [calculation_error])
       /\ (adv = []
           \/ (adv = [object_at_focal_point] /\ get_v data = None
               /\ present (get_focal_length data) && present (get_u data)
                  = true)
           \/ (adv = [image_at_focal_point] /\ get_u data = None
               /\ present (get_focal_length data) && present (get_v data)
                  = true)).
Proof.
  cbv zeta. rewrite solver_outcome.
  destruct (start_diagnostics ty sh data c) as (Se & Sw & Sf).
  destruct (start_fields ty sh data c) as (Su & Sv & _).
  rewrite <- Se, <- Sw, <- Sf, <- Su, <- Sv.
  set (c0 := start ty data sh c). clearbody c0.
  assert (D : forall o : outcome F,
    warnings (state_of o) = warnings c0 ->
    (errors (state_of o) = errors c0
     \/ (errors (state_of o) = errors c0 ++ [object_at_focal_point]
         /\ v c0 = None
         /\ present (focal_length c0) && present (u c0) = true)
     \/ (errors (state_of o) = errors c0 ++ [image_at_focal_point]
         /\ u c0 = None
         /\ present (focal_length c0) && present (v c0) = true)) ->
    forall s : string,
    let r := match o with
             | Done c4 => (true, finish s sh c4)
             | ZeroDivisionError c4 =>
                 (false, errors_append calculation_error c4)
             end in
    warnings (snd r) = warnings c0
    /\ exists adv,
         errors (snd r)
         = errors c0 ++ adv ++ (if fst r then [] else [calculation_error])
         /\ (adv = []
             \/ (adv = [object_at_focal_point] /\ v c0 = None
                 /\ present (focal_length c0) && present (u c0) = true)
             \/ (adv = [image_at_focal_point] /\ u c0 = None
                 /\ present (focal_length c0) && present (v c0) = true))).
  { intros o W E s.
    assert (E' : exists adv,
      errors (state_of o) = errors c0 ++ adv
      /\ (adv = []
          \/ (adv = [object_at_focal_point] /\ v c0 = None
              /\ present (focal_length c0) && present (u c0) = true)
          \/ (adv = [image_at_focal_point] /\ u c0 = None
              /\ present (focal_length c0) && present (v c0) = true))).
    { destruct E as [E | [(E & R) | (E & R)]].
      - exists []. rewrite app_nil_r. split; [exact E | now left].
      - exists [object_at_focal_point]. split; [exact E |].
        right; left. now split.
      - exists [image_at_focal_point]. split; [exact E |].
        right; right. now split. }
    destruct E' as (adv & E' & R).
    destruct o as [c4 | c4]; cbn [state_of] in W, E'; cbn [fst snd].
    - split.
      + destruct (finish_fields s sh c4) as (_ & _ & _ & _ & _ & ->).
        exact W.
      + exists adv. rewrite finish_errors, app_nil_r. now split.
    - split; [exact W |].
      exists adv. split; [| exact R].
      cbn. rewrite E'. now rewrite <- app_assoc. }
  destruct (is_str ty "mirror").
  - destruct (mirror_solve_diagnostics c0) as (W & _ & E).
    exact (D _ W E "mirror").
  - destruct (lens_solve_diagnostics c0) as (W & _ & E).
    exact (D _ W E "lens").
Qed.

End SolverDiagnostics.

(** X4.  What a solve does to the diagnostics, whether it succeeds or
    fails: the warnings are left as they were, and the errors grow by at
    most one focal point advisory, followed by the calculation error
    exactly when the solve fails.  The object advisory needs f and u
    supplied without v, the image advisory f and v without u.  A failed
    solve leaves the stored classification as it was. *)
Theorem solver_diagnostics {F : Type} `{PyFloat F}
    (ty sh : option string) (data : Data F) (c : OpticsCalculator F) :
  let r := solver ty data sh c in
  warnings (snd r) = warnings c
  /\ (exists adv,
        errors (snd r)
        = errors c ++ adv ++ (if fst r then [] else [calculation_error])
        /\ (adv = []
            \/ (adv = [object_at_focal_point] /\ get_v data = None
                /\ present (get_focal_length data) && present (get_u data)
                   = true)
            \/ (adv = [image_at_focal_point] /\ get_u data = None
                /\ present (get_focal_length data) && present (get_v data)
                   = true)))
  /\ (fst r = false ->
      image_characteristics (snd r) = image_characteristics c).
Proof.
  destruct (solver_errors_grow ty sh data c) as (W & E).
  split; [exact W |]. split; [exact E |].
  rewrite solver_outcome, <- (start_characteristics ty sh data c).
  destruct (is_str ty "mirror").
  - destruct (mirror_solve_diagnostics (start ty data sh c)) as (_ & I & _).
    destruct (mirror_solve (start ty data sh c)) as [c4 | c4];
      cbn [fst snd]; [discriminate |].
    intros _. exact I.
  - destruct (lens_solve_diagnostics (start ty data sh c)) as (_ & I & _).
    destruct (lens_solve (start ty data sh c)) as [c4 | c4];
      cbn [fst snd]; [discriminate |].
    intros _. exact I.
Qed.

(** A mirror with u = -20 and v = 20 fails on [u + v]; a classification
    stored by an earlier solve is still there. *)
Lemma solver_diagnostics_witness :
  let data := inputs_of None (Some (-20)%float) (Some 20%float) None None in
  let c := with_image_characteristics at_infinity reset_values in
  fst (solver mirror data concave c) = false
  /\ image_characteristics (snd (solver mirror data concave c))
     = Some at_infinity.
Proof.
  intros data c. split; [reflexivity |].
  exact (proj2 (proj2 (solver_diagnostics mirror concave data c)) eq_refl).
Defined.

(** ** The answers of the route *)

Section Route.

Context {F : Type} `{PyFloat F}.

Variable g : OpticsCalculator F -> option string -> option string
             -> option string.

(** The route in terms of validation and of the solver of the optic
    type. *)
Lemma calculate_result (r : Request F) :
  calculate g r
  = let V := validate_inputs (inputs r) (optic_type r) (shape r)
               reset_values in
    if fst V then
      let S := solver (optic_type r) (inputs r) (shape r) (snd V) in
      if fst S then
        Success
          {| results_focal_length := safe_value (focal_length (snd S));
             results_u := safe_value (u (snd S));
             results_v := safe_value (v (snd S));
             results_h1 := safe_value (h1 (snd S));
             results_h2 := safe_value (h2 (snd S)) |}
          (g (snd S) (optic_type r) (shape r))
          (warnings (snd S))
          (image_characteristics (snd S))
      else Failure (errors (snd S))
    else Failure (errors (snd V)).
Proof.
  unfold calculate, solver. cbv zeta.
  destruct (validate_inputs _ _ _ _) as [[|] c1]; cbn [negb fst snd];
    [| reflexivity].
  destruct (is_str (optic_type r) "mirror").
  - now destruct (calculate_mirror _ _ _) as [[|] c2].
  - now destruct (calculate_lens _ _ _) as [[|] c2].
Qed.

(** Validation that passes leaves no error. *)
Lemma validate_inputs_no_error data ty sh (c : OpticsCalculator F) :
  fst (validate_inputs data ty sh c) = true ->
  errors (snd (validate_inputs data ty sh c)) = []
  /\ warnings (snd (validate_inputs data ty sh c)) = sign_warnings data ty sh.
Proof.
  rewrite validate_inputs_result.
  destruct (truthy ty && truthy sh); cbn; [| discriminate].
  intros E. apply Nat.eqb_eq in E.
  now destruct (validation_errors data).
Qed.

Lemma validate_inputs_some_error data ty sh (c : OpticsCalculator F) :
  fst (validate_inputs data ty sh c) = false ->
  errors (snd (validate_inputs data ty sh c)) <> [].
Proof.
  rewrite validate_inputs_result.
  destruct (truthy ty && truthy sh); cbn; [| discriminate].
  destruct (validation_errors data); cbn; discriminate.
Qed.

Lemma sign_warnings_short data ty sh :
  (length (sign_warnings data ty sh) <= 1)%nat.
Proof.
  unfold sign_warnings.
  repeat match goal with
  | |- context [match ?x with _ => _ end] => destruct x
  end; cbn; auto.
Qed.

Lemma sign_warnings_no_advisory (data : Data F) ty sh :
  ~ In object_at_focal_point (sign_warnings data ty sh)
  /\ ~ In image_at_focal_point (sign_warnings data ty sh).
Proof.
  unfold sign_warnings.
  repeat match goal with
  | |- context [match ?x with _ => _ end] => destruct x
  end; cbn; split; intros K; intuition discriminate.
Qed.

End Route.

(** X5.  An unsuccessful answer never has an empty list of errors.  When
    validation fails the list is the validation errors; when the
    calculation fails it ends with the calculation error, after at most
    one focal point advisory. *)
Theorem failure_reports_an_error {F : Type} `{PyFloat F}
    (g : OpticsCalculator F -> option string -> option string
         -> option string)
    (r : Request F) (es : list string) :
  calculate g r = Failure es ->
  es <> []
  /\ let V := validate_inputs (inputs r) (optic_type r) (shape r)
                reset_values in
     if fst V then
       es = [calculation_error]
       \/ es = [object_at_focal_point; calculation_error]
       \/ es = [image_at_focal_point; calculation_error]
     else es = errors (snd V).
Proof.
  rewrite calculate_result. cbv zeta.
  destruct (fst (validate_inputs _ _ _ _)) eqn:V.
  - destruct (validate_inputs_no_error _ _ _ _ V) as (E & _).
    destruct (solver_errors_grow (optic_type r) (shape r) (inputs r)
                (snd (validate_inputs (inputs r) (optic_type r) (shape r)
                        reset_values)))
      as (_ & adv & Es & R).
    cbv zeta in Es. rewrite E in Es. cbn [app] in Es.
    destruct (fst (solver _ _ _ _)); [discriminate |].
    intros [= <-]. rewrite Es.
    destruct R as [-> | [(-> & _) | (-> & _)]]; cbn.
    + split; [discriminate | now left].
    + split; [discriminate | right; now left].
    + split; [discriminate | right; now right].
  - intros [= <-]. split; [| reflexivity].
    now apply validate_inputs_some_error.
Qed.

(** A mirror with u = -20 and v = 20: the focal length is [u v / (u + v)]
    and the sum is zero. *)
Lemma failure_reports_an_error_witness :
  calculate (fun _ _ _ => None)
    (request_of mirror concave
       (inputs_of None (Some (-20)%float) (Some 20%float) None None))
  = Failure [calculation_error]
  /\ [calculation_error] <> [].
Proof.
  split; [reflexivity |].
  exact (proj1 (failure_reports_an_error (fun _ _ _ => None)
                  (request_of mirror concave
                     (inputs_of None (Some (-20)%float) (Some 20%float)
                        None None))
                  [calculation_error] eq_refl)).
Defined.

(** X6.  The warnings of an answer are those of validation: at most one
    message, about the sign of the focal length.  A focal point advisory
    is never among them, since the solver appends it to the errors, which
    a successful answer does not carry. *)
Theorem success_warnings {F : Type} `{PyFloat F}
    (g : OpticsCalculator F -> option string -> option string
         -> option string)
    (r : Request F) :
  (succeeded (calculate g r) = true ->
   warnings_of (calculate g r)
   = sign_warnings (inputs r) (optic_type r) (shape r))
  /\ (length (warnings_of (calculate g r)) <= 1)%nat
  /\ ~ In object_at_focal_point (warnings_of (calculate g r))
  /\ ~ In image_at_focal_point (warnings_of (calculate g r)).
Proof.
  assert (W : (succeeded (calculate g r) = false
               /\ warnings_of (calculate g r) = [])
              \/ (succeeded (calculate g r) = true
                  /\ warnings_of (calculate g r)
                     = sign_warnings (inputs r) (optic_type r) (shape r))).
  { rewrite calculate_result. cbv zeta.
    destruct (fst (validate_inputs _ _ _ _)) eqn:V; [| now left].
    destruct (validate_inputs_no_error _ _ _ _ V) as (_ & Ws).
    destruct (solver_errors_grow (optic_type r) (shape r) (inputs r)
                (snd (validate_inputs (inputs r) (optic_type r) (shape r)
                        reset_values)))
      as (Wk & _).
    cbv zeta in Wk.
    destruct (fst (solver _ _ _ _)); [| now left].
    right. cbn. split; [reflexivity |]. now rewrite Wk. }
  destruct W as [(S & W) | (S & W)]; rewrite W.
  - split; [rewrite S; discriminate |].
    cbn. split; [auto | split; intros []].
  - split; [reflexivity |].
    split; [apply sign_warnings_short | apply sign_warnings_no_advisory].
Qed.

(** A concave mirror given f = 20 and u = -20: the focal length becomes
    -20, the object is at the focal point, and the answer has no
    warning. *)
Lemma success_warnings_witness :
  let r := request_of mirror concave
             (inputs_of (Some 20%float) (Some (-20)%float) None None None) in
  succeeded (calculate (fun _ _ _ => None) r) = true
  /\ warnings_of (calculate (fun _ _ _ => None) r) = [].
Proof.
  intros r.
  assert (S : succeeded (calculate (fun _ _ _ => None) r) = true)
    by reflexivity.
  split; [exact S |].
  rewrite (proj1 (success_warnings (fun _ _ _ => None) r) S).
  reflexivity.
Defined.

(** ** Infinity in the results, the classification and the diagram *)

Section Infinity.

Context {F : Type} `{PyFloat F}.

Lemma safe_value_null (x : option F) :
  is_null (safe_value x) = negb (present x).
Proof.
  destruct x as [a|]; [| reflexivity].
  cbn. destruct (f_isinf a); [| reflexivity].
  now destruct (f_gt a f_zero).
Qed.

Lemma safe_value_sentinel (x : option F) :
  is_sentinel (safe_value x) = is_infinite x.
Proof.
  destruct x as [a|]; [| reflexivity].
  cbn. destruct (f_isinf a); [| reflexivity].
  now destruct (f_gt a f_zero).
Qed.

Lemma round_value_present (x : option F) :
  present (round_value x) = present x.
Proof.
  destruct x as [a|]; [| reflexivity].
  cbn. now destruct (f_isinf a).
Qed.

(** The classification is stored exactly when u, v, h1 and h2 are all
    known; it is the record for infinity when u or v is infinite, and has
    the nature Real or Virtual otherwise. *)
Lemma analyze_image (ty : string) (sh : option string)
    (c : OpticsCalculator F) :
  (present (u c) && present (v c) && present (h1 c) && present (h2 c) = true
   -> exists i,
        image_characteristics (_analyze_image_characteristics ty sh c)
        = Some i
        /\ (is_infinite (u c) || is_infinite (v c) = true
            -> i = at_infinity)
        /\ (is_infinite (u c) || is_infinite (v c) = false
            -> nature i = "Real" \/ nature i = "Virtual"))
  /\ (present (u c) && present (v c) && present (h1 c) && present (h2 c)
      = false
      -> image_characteristics (_analyze_image_characteristics ty sh c)
         = image_characteristics c).
Proof.
  unfold _analyze_image_characteristics.
  destruct c as [f [xu|] [xv|] [a|] [b|] es ws ic]; cbn;
    (split; [intros E | intros E]; try discriminate E; try reflexivity).
  rewrite (Bool.orb_comm (f_isinf xu)).
  destruct (f_isinf xv || f_isinf xu); cbn; eexists;
    (split; [reflexivity |]); (split; [intros K | intros K]);
    try discriminate K; try reflexivity.
  destruct (ty =? "mirror")%string;
    [destruct (f_lt xv f_zero) | destruct (f_gt xv f_zero)]; auto.
Qed.

(** A successful solve from a calculator without a classification: the
    end state of the derivations, rounded, then classified. *)
Lemma solver_success ty sh (data : Data F) (c c' : OpticsCalculator F) :
  solver ty data sh c = (true, c') ->
  exists c4,
    state_of (if is_str ty "mirror" then mirror_solve (start ty data sh c)
              else lens_solve (start ty data sh c)) = c4
    /\ c' = finish (if is_str ty "mirror" then "mirror" else "lens") sh c4.
Proof.
  rewrite solver_outcome.
  destruct (is_str ty "mirror").
  - destruct (mirror_solve _) as [c4 | c4]; intros [= <-]. now exists c4.
  - destruct (lens_solve _) as [c4 | c4]; intros [= <-]. now exists c4.
Qed.

(** The classification after a successful solve: stored exactly when
    u, v, h1 and h2 are all known, which two of f, u, v supplied ensure;
    otherwise the calculator keeps the classification it had. *)
Lemma solver_characteristics ty sh (data : Data F)
    (c c' : OpticsCalculator F) :
  solver ty data sh c = (true, c') ->
  (present (u c') && present (v c') && present (h1 c') && present (h2 c')
   = true ->
   exists i,
     image_characteristics c' = Some i
     /\ (is_infinite (u c') || is_infinite (v c') = true -> i = at_infinity)
     /\ (is_infinite (u c') || is_infinite (v c') = false ->
         nature i = "Real" \/ nature i = "Virtual"))
  /\ (present (u c') && present (v c') && present (h1 c') && present (h2 c')
      = false ->
      image_characteristics c' = image_characteristics c)
  /\ ((2 <= given (get_focal_length data) + given (get_u data)
            + given (get_v data))%nat ->
      present (u c') && present (v c') && present (h1 c') && present (h2 c')
      = true).
Proof.
  intros S.
  destruct (solver_succeeded _ _ _ _ _ S)
    as (c4' & D & _ & _ & R & _).
  destruct (solver_success _ _ _ _ _ S) as (c4 & E4 & ->).
  assert (E : c4' = c4).
  { rewrite <- E4. destruct (is_str ty "mirror"); now rewrite D. }
  subst c4'. clear D.
  assert (I4 : image_characteristics c4 = image_characteristics c).
  { rewrite <- E4.
    destruct (is_str ty "mirror").
    - destruct (mirror_solve_diagnostics (start ty data sh c))
        as (_ & -> & _).
      apply start_characteristics.
    - destruct (lens_solve_diagnostics (start ty data sh c))
        as (_ & -> & _).
      apply start_characteristics. }
  set (s := if is_str ty "mirror" then "mirror" else "lens").
  unfold finish.
  destruct (analyze_fields s sh (_round_values c4))
    as (_ & -> & -> & -> & -> & _).
  destruct (analyze_image s sh (_round_values c4)) as (A1 & A2).
  split; [exact A1 |]. split.
  - intros N. rewrite (A2 N). exact I4.
  - intros G. apply Nat.leb_le in G. rewrite G in R.
    change (u (_round_values c4)) with (round_value (u c4)).
    change (v (_round_values c4)) with (round_value (v c4)).
    change (h1 (_round_values c4)) with (round_value (h1 c4)).
    change (h2 (_round_values c4)) with (round_value (h2 c4)).
    rewrite !round_value_present.
    unfold resolved in R. rewrite <- !Bool.andb_assoc in R.
    apply Bool.andb_true_iff in R. destruct R as (_ & R).
    now rewrite !Bool.andb_assoc in R.
Qed.

Variable g : OpticsCalculator F -> option string -> option string
             -> option string.

(** A successful answer shows the calculator that the solver returned on
    a validated request. *)
Lemma calculate_success (r : Request F) res d ws ic :
  calculate g r = Success res d ws ic ->
  exists c',
    solver (optic_type r) (inputs r) (shape r)
      (snd (validate_inputs (inputs r) (optic_type r) (shape r)
              reset_values)) = (true, c')
    /\ res = {| results_focal_length := safe_value (focal_length c');
                results_u := safe_value (u c');
                results_v := safe_value (v c');
                results_h1 := safe_value (h1 c');
                results_h2 := safe_value (h2 c') |}
    /\ d = g c' (optic_type r) (shape r)
    /\ ws = warnings c'
    /\ ic = image_characteristics c'.
Proof.
  rewrite calculate_result. cbv zeta.
  destruct (fst (validate_inputs _ _ _ _)); [| discriminate].
  destruct (solver _ _ _ _) as [[|] c']; cbn [fst snd]; [| discriminate].
  intros [= <- <- <- <-]. exists c'. repeat split.
Qed.

Lemma validated_characteristics data ty sh :
  image_characteristics
    (snd (validate_inputs data ty sh (reset_values (F := F)))) = None.
Proof.
  rewrite validate_inputs_result.
  now destruct (truthy ty && truthy sh).
Qed.

End Infinity.

(** X7.  A successful answer carries image characteristics exactly when
    its results have u, v, h1 and h2, which is the case whenever two of
    f, u and v were supplied.  The characteristics are the record for
    infinity exactly when u or v is shown as one of the infinity
    strings. *)
Theorem characteristics_reported {F : Type} `{PyFloat F}
    (g : OpticsCalculator F -> option string -> option string
         -> option string)
    (r : Request F) (res : Results F) (d : option string)
    (ws : list string) (ic : option (ImageCharacteristics F)) :
  calculate g r = Success res d ws ic ->
  (ic <> None <->
   is_null (results_u res) || is_null (results_v res)
   || is_null (results_h1 res) || is_null (results_h2 res) = false)
  /\ ((2 <= given (get_focal_length (inputs r)) + given (get_u (inputs r))
            + given (get_v (inputs r)))%nat -> ic <> None)
  /\ (forall i, ic = Some i ->
        (i = at_infinity <->
         is_sentinel (results_u res) || is_sentinel (results_v res) = true)
        /\ (nature i = "Image at infinity" <-> i = at_infinity)).
Proof.
  intros C.
  destruct (calculate_success g r res d ws ic C)
    as (c' & S & -> & _ & _ & ->).
  cbn [results_u results_v results_h1 results_h2].
  rewrite !safe_value_null, !safe_value_sentinel.
  destruct (solver_characteristics _ _ _ _ _ S) as (A1 & A2 & A3).
  rewrite validated_characteristics in A2.
  assert (P : present (u c') && present (v c') && present (h1 c')
              && present (h2 c')
              = negb (negb (present (u c')) || negb (present (v c'))
                      || negb (present (h1 c')) || negb (present (h2 c'))))
    by (destruct (present (u c')), (present (v c')), (present (h1 c')),
          (present (h2 c')); reflexivity).
  apply (f_equal negb) in P. rewrite Bool.negb_involutive in P.
  rewrite <- P. clear P.
  destruct (present (u c') && present (v c') && present (h1 c')
            && present (h2 c')) eqn:All; cbn [negb].
  - destruct (A1 eq_refl) as (i & -> & Inf & Fin).
    split; [split; [reflexivity | discriminate] |].
    split; [discriminate |].
    intros i' [= <-].
    destruct (is_infinite (u c') || is_infinite (v c')).
    + rewrite (Inf eq_refl). repeat split.
    + destruct (Fin eq_refl) as [N | N];
        split; split; intros K; try discriminate K;
        rewrite K in N; cbn in N; discriminate N.
  - rewrite (A2 eq_refl).
    split; [split; [intros K; now elim K | discriminate] |].
    split; [| discriminate].
    intros G. discriminate (A3 G).
Qed.

(** A concave mirror with the object at the focal point (f = 20 becomes
    -20, u = -20). *)
Lemma characteristics_reported_witness :
  let r := request_of mirror concave
             (inputs_of (Some 20%float) (Some (-20)%float) None None None) in
  exists res d ws ic,
    calculate (fun _ _ _ => None) r = Success res d ws ic
    /\ ic <> None.
Proof.
  intros r.
  destruct (calculate (fun _ _ _ => None) r) as [res d ws ic | es] eqn:C;
    [| exfalso; vm_compute in C; discriminate C].
  exists res, d, ws, ic. split; [reflexivity |].
  destruct (characteristics_reported (fun _ _ _ => None) r res d ws ic C)
    as (_ & P & _).
  apply P. cbn. apply le_n.
Defined.

(** X8.  [generate_diagram] draws the focal point figure exactly when the
    answer shows u or v as one of the infinity strings, and the ordinary
    ray diagram otherwise; both are drawn from the calculator whose
    values the results show.  A result shown as a number is never
    infinite. *)
Theorem diagram_follows_results {F : Type} `{PyFloat F}
    (fp dr : OpticsCalculator F -> option string -> option string
             -> option string)
    (r : Request F) (res : Results F) (d : option string)
    (ws : list string) (ic : option (ImageCharacteristics F)) :
  calculate (generate_diagram fp dr) r = Success res d ws ic ->
  (exists c',
     res = {| results_focal_length := safe_value (focal_length c');
              results_u := safe_value (u c');
              results_v := safe_value (v c');
              results_h1 := safe_value (h1 c');
              results_h2 := safe_value (h2 c') |}
     /\ d = if is_sentinel (results_u res) || is_sentinel (results_v res)
            then fp c' (optic_type r) (shape r)
            else dr c' (optic_type r) (shape r))
  /\ (forall x,
        In (JNumber x)
          [results_focal_length res; results_u res; results_v res;
           results_h1 res; results_h2 res] ->
        f_isinf x = false).
Proof.
  intros C.
  destruct (calculate_success _ r res d ws ic C)
    as (c' & _ & -> & -> & _).
  cbn [results_focal_length results_u results_v results_h1 results_h2].
  split.
  - exists c'. split; [reflexivity |].
    rewrite !safe_value_sentinel. reflexivity.
  - assert (N : forall (o : option F) x,
                  safe_value o = JNumber x -> f_isinf x = false).
    { intros [a|] x; cbn; [| discriminate].
      destruct (f_isinf a) eqn:I.
      - destruct (f_gt a f_zero); discriminate.
      - intros [= <-]. exact I. }
    intros x [K | [K | [K | [K | [K | []]]]]]; exact (N _ _ K).
Qed.

(** The same request: the object distance is shown as a number. *)
Lemma diagram_follows_results_witness :
  let r := request_of mirror concave
             (inputs_of (Some 20%float) (Some (-20)%float) None None None) in
  let fp := fun _ _ _ => Some "focal point figure" in
  let dr := fun _ _ _ => Some "ray diagram" in
  exists res d ws ic,
    calculate (generate_diagram fp dr) r = Success res d ws ic
    /\ forall x, results_u res = JNumber x -> f_isinf x = false.
Proof.
  intros r fp dr.
  destruct (calculate (generate_diagram fp dr) r)
    as [res d ws ic | es] eqn:C;
    [| exfalso; vm_compute in C; discriminate C].
  exists res, d, ws, ic. split; [reflexivity |].
  intros x K.
  apply (proj2 (diagram_follows_results fp dr r res d ws ic C) x).
  right; left. exact K.
Defined.

(** ** The labels of the diagram and the classification *)

Module B64Order.
Open Scope float_scope.

Lemma ltb_zero_asym (x : float) : (0 <? x) = true -> (x <? 0) = false.
Proof.
  rewrite !FloatAxioms.ltb_spec.
  change (Prim2SF 0) with (S754_zero false).
  destruct (Prim2SF x) as [[] | [] | | [] m e]; cbn; congruence.
Qed.

Lemma neither_sign (x : float) :
  (0 <? x) = false -> (x <? 0) = false ->
  (x =? 0) = true \/ (x =? x) = false.
Proof.
  rewrite !FloatAxioms.ltb_spec, !FloatAxioms.eqb_spec.
  change (Prim2SF 0) with (S754_zero false).
  destruct (Prim2SF x) as [[] | [] | | [] m e]; cbn; auto; discriminate.
Qed.

Lemma mul_comm (x y : float) : x * y = y * x.
Proof.
  apply Prim2SF_inj. rewrite !mul_spec.
  destruct (Prim2SF x) as [[] | [] | | [] m e],
    (Prim2SF y) as [[] | [] | | [] m' e']; cbn; try reflexivity;
    now rewrite Pos.mul_comm, Z.add_comm.
Qed.

Lemma is_infinity_sign (x : float) :
  is_infinity x = true ->
  if 0 <? x then x = infinity else x = neg_infinity.
Proof.
  unfold is_infinity.
  rewrite FloatAxioms.eqb_spec, FloatAxioms.ltb_spec, abs_spec.
  change (Prim2SF 0) with (S754_zero false).
  change (Prim2SF infinity) with (S754_infinity false).
  intros E. rewrite <- (SF2Prim_Prim2SF x).
  destruct (Prim2SF x) as [[] | [] | | [] m e]; cbn in E |- *;
    try discriminate E; reflexivity.
Qed.

End B64Order.

(** X9.  On binary64, [safe_value] shows exactly the two infinities as
    strings, each under its own sign; every other float, not-a-number
    included, is passed on as a number. *)
Theorem safe_value_sentinels (x : float) :
  (safe_value (Some x) = JString "∞" <-> x = infinity)
  /\ (safe_value (Some x) = JString "-∞" <-> x = neg_infinity)
  /\ (x <> infinity -> x <> neg_infinity -> safe_value (Some x) = JNumber x).
Proof.
  change (safe_value (Some x))
    with (if is_infinity x
          then if (0 <? x)%float then JString "∞" else JString "-∞"
          else JNumber x).
  destruct (is_infinity x) eqn:I.
  - pose proof (B64Order.is_infinity_sign x I) as S.
    destruct (0 <? x)%float eqn:P; subst x.
    + repeat split; try discriminate; try reflexivity.
      intros K. now elim K.
    + repeat split; try discriminate; try reflexivity.
      intros _ K. now elim K.
  - repeat split; try discriminate; intros ->; discriminate I.
Qed.

Lemma safe_value_sentinels_witness :
  (1.5%float <> infinity /\ 1.5%float <> neg_infinity)
  /\ safe_value (Some 1.5%float) = JNumber 1.5%float.
Proof.
  assert (P : 1.5%float <> infinity)
    by (intros E; discriminate (f_equal is_infinity E)).
  assert (N : 1.5%float <> neg_infinity)
    by (intros E; discriminate (f_equal is_infinity E)).
  split; [split; assumption |].
  exact (proj2 (proj2 (safe_value_sentinels 1.5%float)) P N).
Defined.

Section Labels.

Open Scope float_scope.

Variable c : OpticsCalculator float.
Variable sh : option string.
Variables xu xv a b : float.

Hypothesis Hu : u c = Some xu.
Hypothesis Hv : v c = Some xv.
Hypothesis Ha : h1 c = Some a.
Hypothesis Hb : h2 c = Some b.
Hypothesis finite : is_infinity xv || is_infinity xu = false.

Lemma image_arrow_value :
  image_arrow c
  = Some {| arrow_style := if 0 <? xv then "-" else "--";
            arrow_color := if 0 <? xv then "green" else "orange";
            arrow_label := if 0 <? xv then "Real Image"
                           else "Virtual Image" |}.
Proof. unfold image_arrow. now rewrite Hv, Hb. Qed.

Lemma classification_value (ty : string) :
  exists i,
    image_characteristics (_analyze_image_characteristics ty sh c) = Some i
    /\ nature i = (if (ty =? "mirror")%string
                   then if xv <? 0 then "Real" else "Virtual"
                   else if 0 <? xv then "Real" else "Virtual")
    /\ orientation i = (if 0 <? b * a then "Erect" else "Inverted").
Proof.
  unfold _analyze_image_characteristics. rewrite Hu, Hv, Ha, Hb.
  change (f_isinf xv || f_isinf xu) with (is_infinity xv || is_infinity xu).
  rewrite finite. cbn. eexists. split; [reflexivity |].
  split; [reflexivity |]. now destruct (ty =? "mirror")%string.
Qed.

End Labels.

(** X10.  The mirror diagram and the classification name the image by
    opposite tests: the arrow is labelled Real Image (solid, green) when
    v > 0, while the nature is Real when v < 0.  So the two never both say
    Real, and they agree only when v is zero or not a number.  In
    particular, whenever the rays are dotted, for a virtual and erect
    image, the arrow of the same diagram is labelled Real Image. *)
Theorem mirror_diagram_labels (c : OpticsCalculator float)
    (sh : option string) (xu xv a b : float) :
  u c = Some xu -> v c = Some xv -> h1 c = Some a -> h2 c = Some b ->
  is_infinity xv || is_infinity xu = false ->
  exists arrow i,
    image_arrow c = Some arrow
    /\ image_characteristics (_analyze_image_characteristics "mirror" sh c)
       = Some i
    /\ (arrow_label arrow = "Real Image" -> nature i = "Virtual")
    /\ (nature i = "Real" -> arrow_label arrow = "Virtual Image")
    /\ ((arrow_label arrow = "Real Image" <-> nature i = "Real") ->
        (xv =? 0)%float = true \/ (xv =? xv)%float = false)
    /\ (mirror_ray_style c = Some "--" ->
        arrow_label arrow = "Real Image" /\ nature i = "Virtual"
        /\ orientation i = "Erect").
Proof.
  intros Hu Hv Ha Hb Fin.
  destruct (classification_value c sh xu xv a b Hu Hv Ha Hb Fin "mirror")
    as (i & I & N & O).
  cbn in N.
  eexists; exists i. split; [apply (image_arrow_value c xv b Hv Hb) |].
  split; [exact I |]. cbn [arrow_label]. rewrite N, O.
  destruct (0 <? xv)%float eqn:P.
  - rewrite (B64Order.ltb_zero_asym _ P).
    split; [reflexivity |]. split; [discriminate |].
    split; [intros (K & _); discriminate (K eq_refl) |].
    unfold mirror_ray_style. rewrite Hv, Ha, Hb.
    destruct (rays_drawn c); [| discriminate].
    change (f_gt xv f_zero) with (0 <? xv)%float.
    change (f_gt (f_mul a b) f_zero) with (0 <? a * b)%float.
    rewrite P, (B64Order.mul_comm b a).
    destruct (0 <? a * b)%float; cbn; [| discriminate].
    repeat split.
  - split; [discriminate |]. split; [reflexivity |].
    split.
    + destruct (xv <? 0)%float eqn:Q.
      * intros (_ & K). discriminate (K eq_refl).
      * intros _. now apply B64Order.neither_sign.
    + unfold mirror_ray_style. rewrite Hv, Ha, Hb.
      destruct (rays_drawn c); [| discriminate].
      change (f_gt xv f_zero) with (0 <? xv)%float.
      rewrite P. cbn. discriminate.
Qed.

(** A concave mirror with the object inside the focal length: u = -20,
    v = 33.333, h1 = 15, h2 = 25.  The image is virtual and erect, the
    rays are dotted, and the arrow is labelled Real Image. *)
Lemma mirror_diagram_labels_witness :
  let c := with_h2 (Some 25%float) (with_h1 (Some 15%float)
             (with_v (Some 33.333%float) (with_u (Some (-20)%float)
                (with_focal_length (Some (-50)%float) reset_values)))) in
  mirror_ray_style c = Some "--"
  /\ exists arrow i,
       image_arrow c = Some arrow
       /\ image_characteristics
            (_analyze_image_characteristics "mirror" concave c) = Some i
       /\ arrow_label arrow = "Real Image" /\ nature i = "Virtual".
Proof.
  intros c.
  assert (R : mirror_ray_style c = Some "--") by reflexivity.
  split; [exact R |].
  destruct (mirror_diagram_labels c concave (-20)%float 33.333%float
              15%float 25%float eq_refl eq_refl eq_refl eq_refl eq_refl)
    as (arrow & i & A & I & _ & _ & _ & K).
  exists arrow, i. split; [exact A |]. split; [exact I |].
  destruct (K R) as (L & N & _). now split.
Defined.

(** X11.  For a lens the two agree: the arrow of the lens diagram is
    labelled Real Image exactly when the nature is Real. *)
Theorem lens_diagram_labels (c : OpticsCalculator float)
    (sh : option string) (xu xv a b : float) :
  u c = Some xu -> v c = Some xv -> h1 c = Some a -> h2 c = Some b ->
  is_infinity xv || is_infinity xu = false ->
  exists arrow i,
    image_arrow c = Some arrow
    /\ image_characteristics (_analyze_image_characteristics "lens" sh c)
       = Some i
    /\ (arrow_label arrow = "Real Image" <-> nature i = "Real")
    /\ (arrow_label arrow = "Virtual Image" <-> nature i = "Virtual").
Proof.
  intros Hu Hv Ha Hb Fin.
  destruct (classification_value c sh xu xv a b Hu Hv Ha Hb Fin "lens")
    as (i & I & N & _).
  cbn in N.
  eexists; exists i. split; [apply (image_arrow_value c xv b Hv Hb) |].
  split; [exact I |]. cbn [arrow_label]. rewrite N.
  destruct (0 <? xv)%float; repeat split; discriminate.
Qed.

(** A convex lens with f = 10 and u = -30: v = 15, h1 = 3, h2 = -1.5. *)
Lemma lens_diagram_labels_witness :
  let c := with_h2 (Some (-1.5)%float) (with_h1 (Some 3%float)
             (with_v (Some 15%float) (with_u (Some (-30)%float)
                (with_focal_length (Some 10%float) reset_values)))) in
  exists arrow i,
    image_arrow c = Some arrow
    /\ image_characteristics
         (_analyze_image_characteristics "lens" convex c) = Some i
    /\ (arrow_label arrow = "Real Image" <-> nature i = "Real").
Proof.
  intros c.
  destruct (lens_diagram_labels c convex (-30)%float 15%float
              3%float (-1.5)%float eq_refl eq_refl eq_refl eq_refl eq_refl)
    as (arrow & i & A & I & K & _).
  exists arrow, i. split; [exact A |]. split; [exact I | exact K].
Defined.

(** ** Reading the request *)



(** ** When the calculation fails *)

Section SolveDone.

Context {F : Type} `{PyFloat F}.

Ltac run_done :=
  intros c; destruct c as [[f|] [xu|] [xv|] [a|] [b|] es ws ic];
  intros Hb Ha; try discriminate Hb;
  try (pose proof (Ha _ eq_refl) as Ha'); clear Ha Hb;
  unfold formula_of, mirror_solve, lens_solve, mirror_formula,
    mirror_magnification, mirror_distances_from_heights,
    mirror_default_height, lens_formula, lens_magnification,
    lens_distances_from_heights, lens_default_height, py_div, bind;
  simpl;
  repeat (match goal with
          | |- context [if ?b then _ else _] =>
              match type of b with bool => destruct b eqn:? end
          end; simpl);
  try reflexivity; congruence.

(** Without a supplied image height and with a nonzero object height,
    the derivations after the formula step can only fail on the
    magnification, which divides by u. *)
Lemma mirror_solve_done :
  forall c : OpticsCalculator F,
    h2 c = None ->
    (forall a, h1 c = Some a -> f_eq a f_zero = false) ->
    is_done (mirror_solve c)
    = match mirror_formula c with
      | Done c1 =>
          match u c1, v c1 with
          | Some xu, Some _ => negb (f_eq xu f_zero)
          | _, _ => true
          end
      | ZeroDivisionError _ => false
      end.
Proof.
  run_done.
Qed.

Lemma lens_solve_done :
  forall c : OpticsCalculator F,
    h2 c = None ->
    (forall a, h1 c = Some a -> f_eq a f_zero = false) ->
    is_done (lens_solve c)
    = match lens_formula c with
      | Done c1 =>
          match u c1, v c1 with
          | Some xu, Some _ => negb (f_eq xu f_zero)
          | _, _ => true
          end
      | ZeroDivisionError _ => false
      end.
Proof.
  run_done.
Qed.

Lemma start_focal_length ty sh (data : Data F) (c c' : OpticsCalculator F) :
  focal_length (start ty data sh c) = focal_length (start ty data sh c').
Proof.
  unfold start, mirror_sign_convention, extract.
  destruct (is_str ty "mirror"); cbn; [| reflexivity].
  destruct (get_focal_length data) as [f|]; [| reflexivity].
  destruct (is_str sh "concave" && f_gt f f_zero);
    [| destruct (is_str sh "convex" && f_lt f f_zero)]; reflexivity.
Qed.

Variable g : OpticsCalculator F -> option string -> option string
             -> option string.

(** The route succeeds when validation passes and the derivations end
    normally. *)
Lemma calculate_succeeded (r : Request F) :
  succeeded (calculate g r)
  = fst (validate_inputs (inputs r) (optic_type r) (shape r) reset_values)
    && is_done
         (let c0 :=
            start (optic_type r) (inputs r) (shape r)
              (snd (validate_inputs (inputs r) (optic_type r) (shape r)
                      reset_values)) in
          if is_str (optic_type r) "mirror" then mirror_solve c0
          else lens_solve c0).
Proof.
  rewrite calculate_result. cbv zeta.
  destruct (fst (validate_inputs _ _ _ _)); [| reflexivity].
  rewrite solver_outcome. cbn [andb].
  destruct (is_str (optic_type r) "mirror").
  - now destruct (mirror_solve _).
  - now destruct (lens_solve _).
Qed.

End SolveDone.

(** On binary64, a validated request without an image height succeeds
    unless the formula step raises or leaves a zero object distance; a
    supplied object distance is never zero. *)
Lemma validated_outcome (g : Renderer) (r : Request float) :
  fst (validate_inputs (inputs r) (optic_type r) (shape r) reset_values)
  = true ->
  get_h2 (inputs r) = None ->
  let c0 := start (optic_type r) (inputs r) (shape r)
              (snd (validate_inputs (inputs r) (optic_type r) (shape r)
                      reset_values)) in
  succeeded (calculate g r)
  = match formula_of (optic_type r) c0 with
    | Done c1 =>
        match u c1, v c1 with
        | Some xu, Some _ => negb (xu =? 0)%float
        | _, _ => true
        end
    | ZeroDivisionError _ => false
    end
  /\ (forall x, get_u (inputs r) = Some x -> (x =? 0)%float = false).
Proof.
  intros V Hb.
  destruct (validate_inputs (inputs r) (optic_type r) (shape r) reset_values)
    as [ok c1] eqn:EV.
  cbn [fst] in V. subst ok. cbn [snd].
  destruct (validate_inputs_passed _ _ _ _ c1 EV)
    as (_ & _ & _ & Vu & Va & _ & _).
  assert (S : succeeded (calculate g r)
              = is_done (if is_str (optic_type r) "mirror"
                         then mirror_solve
                                (start (optic_type r) (inputs r) (shape r) c1)
                         else lens_solve
                                (start (optic_type r) (inputs r) (shape r)
                                   c1))).
  { rewrite calculate_succeeded. now rewrite EV. }
  rewrite S. clear S.
  destruct (start_fields (optic_type r) (shape r) (inputs r) c1)
    as (_ & _ & Sa & Sb & _ & _).
  set (c0 := start (optic_type r) (inputs r) (shape r) c1) in *.
  clearbody c0.
  assert (Hb0 : h2 c0 = None) by congruence.
  assert (Ha0 : forall a, h1 c0 = Some a -> f_eq a f_zero = false).
  { intros a E. apply B64Facts.positive_nonzero. apply Va. congruence. }
  split.
  - unfold formula_of. destruct (is_str (optic_type r) "mirror").
    + exact (mirror_solve_done c0 Hb0 Ha0).
    + exact (lens_solve_done c0 Hb0 Ha0).
  - intros x E. apply B64Facts.negative_nonzero. now apply Vu.
Qed.

(** X13.  On binary64, a validated request without an image height can
    fail in the calculation in two ways only.  With u and v supplied and
    f missing, it fails exactly when the divisor of the focal length,
    [u + v] for a mirror and [v - u] for a lens, is zero.  With f and v
    supplied and u missing, it fails exactly when the image is off the
    focal point and the object distance computed from the formula is
    zero, which the magnification then divides by.  In every other case,
    that is when v is missing or f and u are both supplied or both
    missing, the calculation succeeds. *)
Theorem calculation_outcome (g : Renderer) (r : Request float) :
  let data := inputs r in
  let ty := optic_type r in
  let sh := shape r in
  fst (validate_inputs data ty sh reset_values) = true ->
  get_h2 data = None ->
  (forall xu xv,
     get_focal_length data = None -> get_u data = Some xu ->
     get_v data = Some xv ->
     succeeded (calculate g r)
     = negb (if is_str ty "mirror" then (xu + xv =? 0)%float
             else (xv - xu =? 0)%float))
  /\ (forall f' xv,
        get_u data = None -> get_v data = Some xv ->
        focal_length (start ty data sh reset_values) = Some f' ->
        succeeded (calculate g r)
        = (abs (xv - f') <? B64.eps)%float
          || negb (f' * xv / (xv - f') =? 0)%float)
  /\ (negb (present (get_v data))
      || present (get_focal_length data) && present (get_u data)
      || negb (present (get_focal_length data))
         && negb (present (get_u data)) = true ->
      succeeded (calculate g r) = true).
Proof.
  intros data ty sh V Hb.
  destruct (validated_outcome g r V Hb) as (D & Vu). cbv zeta in D.
  rewrite D. clear D.
  rewrite (start_focal_length ty sh data reset_values
             (snd (validate_inputs data ty sh reset_values))).
  destruct (start_fields ty sh data
              (snd (validate_inputs data ty sh reset_values)))
    as (Su & Sv & _ & _ & Sg & _).
  fold data ty sh.
  set (c0 := start ty data sh
               (snd (validate_inputs data ty sh reset_values))) in *.
  clearbody c0.
  assert (Hu0 : forall x, u c0 = Some x -> (x =? 0)%float = false).
  { intros x E. apply Vu. fold data. congruence. }
  clear Vu V. rewrite <- Su, <- Sv. clear Su Sv.
  unfold formula_of, mirror_formula, lens_formula, py_div.
  change (@f_eq float Binary64) with PrimFloat.eqb.
  change (@f_lt float Binary64) with PrimFloat.ltb.
  change (@f_zero float Binary64) with 0%float.
  change (@f_eps float Binary64) with B64.eps.
  change (@f_abs float Binary64) with PrimFloat.abs.
  change (@f_add float Binary64) with PrimFloat.add.
  change (@f_sub float Binary64) with PrimFloat.sub.
  change (@f_mul float Binary64) with PrimFloat.mul.
  change (@f_quot float Binary64) with PrimFloat.div.
  change (@f_gt float Binary64 ?x ?y) with (PrimFloat.ltb y x).
  destruct (get_focal_length data) as [f|] eqn:Ef; cbn in Sg;
    destruct (focal_length c0) as [f0|] eqn:E0; try discriminate Sg;
    clear Sg.
  - (* f supplied *)
    split; [intros xu xv K; discriminate K |].
    split.
    + intros f' xv Eu Ev [= <-]. rewrite Eu, Ev.
      destruct (is_str ty "mirror").
      * destruct (abs (xv - f0) <? B64.eps)%float eqn:T; cbn.
        -- rewrite Ev. now destruct (f0 <? 0)%float.
        -- rewrite (B64Facts.nonzero_outside_eps _ T). cbn.
           now rewrite Ev.
      * destruct (abs (xv - f0) <? B64.eps)%float eqn:T; cbn.
        -- rewrite Ev. now destruct (0 <? f0)%float.
        -- rewrite (B64Facts.nonzero_outside_eps _ T). cbn.
           now rewrite Ev.
    + destruct (u c0) as [xu|] eqn:Eu; cbn [present negb andb orb].
      * intros _. pose proof (Hu0 xu eq_refl) as Z.
        destruct (v c0) as [xv|] eqn:Ev.
        -- destruct (is_str ty "mirror"); cbn; rewrite Eu, Ev, Z;
             reflexivity.
        -- destruct (is_str ty "mirror").
           ++ destruct (abs (xu - f0) <? B64.eps)%float eqn:T.
              ** cbn. now rewrite Eu, Z.
              ** rewrite (B64Facts.nonzero_outside_eps _ T). cbn.
                 now rewrite Eu, Z.
           ++ destruct (abs (xu + f0) <? B64.eps)%float eqn:T.
              ** cbn. now rewrite Eu, Z.
              ** rewrite (B64Facts.nonzero_outside_eps _ T). cbn.
                 now rewrite Eu, Z.
      * destruct (v c0) as [xv|] eqn:Ev; cbn; [discriminate |].
        intros _. destruct (is_str ty "mirror"); cbn; now rewrite Eu.
  - (* f missing *)
    split.
    + intros xu xv _ Eu Ev. rewrite Eu, Ev.
      pose proof (Hu0 xu Eu) as Z.
      destruct (is_str ty "mirror").
      * destruct (xu + xv =? 0)%float; cbn; [reflexivity |].
        now rewrite Eu, Ev, Z.
      * destruct (xv - xu =? 0)%float; cbn; [reflexivity |].
        now rewrite Eu, Ev, Z.
    + split; [intros f' xv _ _ K; discriminate K |].
      destruct (u c0) as [xu|] eqn:Eu, (v c0) as [xv|] eqn:Ev; cbn;
        try discriminate; intros _;
        destruct (is_str ty "mirror"); cbn; rewrite ?Eu, ?Ev; reflexivity.
Qed.

(** A mirror given u = -20 and v = 20, where [u + v] is zero. *)
Lemma calculation_outcome_witness :
  let r := request_of mirror concave
             (inputs_of None (Some (-20)%float) (Some 20%float) None None) in
  (fst (validate_inputs (inputs r) (optic_type r) (shape r) reset_values)
   = true /\ get_h2 (inputs r) = None)
  /\ succeeded (calculate (fun _ _ _ => None) r) = false.
Proof.
  intros r. split; [split; reflexivity |].
  exact (proj1 (calculation_outcome (fun _ _ _ => None) r eq_refl eq_refl)
           (-20)%float 20%float eq_refl eq_refl eq_refl).
Defined.

(** ** The answer for an object at the focal point *)

Module B64Near.
Open Scope float_scope.

Lemma eps_value : exists m e, Prim2SF B64.eps = S754_finite false m e.
Proof. vm_compute. now eexists; eexists. Qed.

Lemma near_sub_finite (x y : float) :
  (abs (x - y) <? B64.eps) = true -> is_infinity x = false.
Proof.
  destruct (is_infinity x) eqn:I; [| reflexivity].
  pose proof (B64Order.is_infinity_sign x I) as S.
  rewrite FloatAxioms.ltb_spec, abs_spec, sub_spec.
  destruct eps_value as (m & e & ->).
  destruct (0 <? x); subst x;
    [change (Prim2SF infinity) with (S754_infinity false)
    | change (Prim2SF neg_infinity) with (S754_infinity true)];
    destruct (Prim2SF y) as [[] | [] | | [] m' e']; cbn; congruence.
Qed.

Lemma near_add_finite (x y : float) :
  (abs (x + y) <? B64.eps) = true -> is_infinity x = false.
Proof.
  destruct (is_infinity x) eqn:I; [| reflexivity].
  pose proof (B64Order.is_infinity_sign x I) as S.
  rewrite FloatAxioms.ltb_spec, abs_spec, add_spec.
  destruct eps_value as (m & e & ->).
  destruct (0 <? x); subst x;
    [change (Prim2SF infinity) with (S754_infinity false)
    | change (Prim2SF neg_infinity) with (S754_infinity true)];
    destruct (Prim2SF y) as [[] | [] | | [] m' e']; cbn; congruence.
Qed.

End B64Near.

Section FocalPoint.

Open Scope float_scope.

Context {F : Type} `{PyFloat F}.

(** The warnings after a successful solve on a validated request. *)
Lemma validated_warnings ty sh (data : Data F) (c' : OpticsCalculator F) :
  fst (validate_inputs data ty sh reset_values) = true ->
  solver ty data sh (snd (validate_inputs data ty sh reset_values))
  = (true, c') ->
  warnings c' = sign_warnings data ty sh.
Proof.
  intros V S.
  destruct (validate_inputs_no_error _ _ _ _ V) as (_ & <-).
  destruct (solver_errors_grow ty sh data
              (snd (validate_inputs data ty sh reset_values))) as (W & _).
  cbv zeta in W. now rewrite S in W.
Qed.

End FocalPoint.

Section FocalPointAnswer.

Open Scope float_scope.

(** X14.  On binary64, a validated request that supplies f and u, without
    v and h2, with the object within 1e-6 of the focal point (of the
    focal length the solver works with), always succeeds.  The answer
    shows v as the infinity string of the sign rule and u as the input
    rounded to three decimals, carries the classification for infinity and the focal point
    figure, and its warnings are those of validation: the advisory is not
    in the answer. *)
Theorem focal_point_answer (fp dr : Renderer) (r : Request float)
    (f' xu : float) :
  let data := inputs r in
  let ty := optic_type r in
  let sh := shape r in
  fst (validate_inputs data ty sh reset_values) = true ->
  get_u data = Some xu -> get_v data = None -> get_h2 data = None ->
  focal_length (start ty data sh reset_values) = Some f' ->
  (abs (if is_str ty "mirror" then xu - f' else xu + f') <? B64.eps)%float
  = true ->
  exists res c',
    calculate (generate_diagram fp dr) r
    = Success res (fp c' ty sh) (sign_warnings data ty sh)
        (Some at_infinity)
    /\ results_v res
       = JString (if (if is_str ty "mirror" then f' <? 0 else 0 <? f')%float
                  then "∞" else "-∞")
    /\ results_u res = safe_value (Some (B64.round3 xu))
    /\ results_u res = safe_value (u c')
    /\ results_v res = safe_value (v c').
Proof.
  intros data ty sh V Eu Ev Hb Ef T.
  destruct (validated_outcome (generate_diagram fp dr) r V Hb) as (D & Vu).
  cbv zeta in D. fold data ty sh in D, Vu.
  set (c1 := snd (validate_inputs data ty sh reset_values)) in *.
  rewrite (start_focal_length ty sh data reset_values c1) in Ef.
  destruct (start_fields ty sh data c1) as (Su & Sv & _).
  rewrite Eu in Su. rewrite Ev in Sv.
  pose proof (Vu xu Eu) as Z.
  (* the formula step *)
  assert (Fm : exists cF,
            (if is_str ty "mirror" then mirror_formula (start ty data sh c1)
             else lens_formula (start ty data sh c1)) = Done cF
            /\ u cF = Some xu
            /\ v cF = Some (if (if is_str ty "mirror" then f' <? 0
                                else 0 <? f')
                            then infinity else neg_infinity)).
  { unfold mirror_formula, lens_formula. rewrite Su, Sv, Ef.
    destruct (is_str ty "mirror").
    - change (f_lt (f_abs (f_sub xu f')) f_eps)
        with (abs (xu - f') <? B64.eps). rewrite T.
      eexists. split; [reflexivity |]. split; [exact Su | reflexivity].
    - change (f_lt (f_abs (f_add xu f')) f_eps)
        with (abs (xu + f') <? B64.eps). rewrite T.
      eexists. split; [reflexivity |]. split; [exact Su | reflexivity]. }
  destruct Fm as (cF & Fm & Fu & Fv).
  assert (Ok : succeeded (calculate (generate_diagram fp dr) r) = true).
  { rewrite D. unfold formula_of.
    destruct (is_str ty "mirror"); rewrite Fm, Fu, Fv; now rewrite Z. }
  destruct (calculate (generate_diagram fp dr) r)
    as [res d ws ic | es] eqn:C; [| discriminate Ok].
  destruct (calculate_success _ r res d ws ic C)
    as (c' & S & -> & -> & -> & ->).
  fold data ty sh in S. fold c1 in S. fold ty sh.
  destruct (formula_result_reported ty sh data c1 cF c' Fm S)
    as (_ & Ru & Rv).
  pose proof (Ru xu Fu) as Ru'. pose proof (Rv _ Fv) as Rv'.
  assert (Xf : is_infinity xu = false).
  { destruct (is_str ty "mirror");
      [exact (B64Near.near_sub_finite _ _ T)
      | exact (B64Near.near_add_finite _ _ T)]. }
  assert (Eu' : u c' = Some (B64.round3 xu)).
  { rewrite Ru'. unfold round_value.
    change (f_isinf xu) with (is_infinity xu). now rewrite Xf. }
  assert (Ev' : v c' = Some (if (if is_str ty "mirror" then f' <? 0
                                 else 0 <? f')
                             then infinity else neg_infinity)).
  { rewrite Rv'. now destruct (if is_str ty "mirror" then f' <? 0
                               else 0 <? f'). }
  assert (Iv : is_infinite (v c') = true).
  { rewrite Ev'. now destruct (if is_str ty "mirror" then f' <? 0
                               else 0 <? f'). }
  destruct (solver_characteristics _ _ _ _ _ S) as (A1 & _ & A3).
  assert (G : (2 <= given (get_focal_length data) + given (get_u data)
                   + given (get_v data))%nat).
  { destruct (start_fields ty sh data c1) as (_ & _ & _ & _ & Sg & _).
    rewrite <- Sg, Ef, Eu, Ev. apply le_n. }
  destruct (A1 (A3 G)) as (i & I & Inf & _).
  rewrite Iv, Bool.orb_true_r in Inf. rewrite (Inf eq_refl) in I.
  exists {| results_focal_length := safe_value (focal_length c');
            results_u := safe_value (u c');
            results_v := safe_value (v c');
            results_h1 := safe_value (h1 c');
            results_h2 := safe_value (h2 c') |}, c'.
  cbn [results_u results_v].
  rewrite I, (validated_warnings ty sh data c' V S).
  split.
  - f_equal. unfold generate_diagram. now rewrite Iv, Bool.orb_true_r.
  - split.
    + rewrite Ev'. now destruct (if is_str ty "mirror" then f' <? 0
                                 else 0 <? f').
    + split; [| split; reflexivity].
      now rewrite Eu'.
Qed.

End FocalPointAnswer.

(** A convex lens with f = 15 and the object at u = -15. *)
Lemma focal_point_answer_witness :
  let r := request_of lens convex
             (inputs_of (Some 15%float) (Some (-15)%float) None None None) in
  let fp : Renderer := fun _ _ _ => Some "focal point figure" in
  let dr : Renderer := fun _ _ _ => Some "ray diagram" in
  (fst (validate_inputs (inputs r) (optic_type r) (shape r) reset_values)
   = true
   /\ focal_length (start (optic_type r) (inputs r) (shape r) reset_values)
      = Some 15%float
   /\ (abs (-15 + 15) <? B64.eps)%float = true)
  /\ exists res,
       calculate (generate_diagram fp dr) r
       = Success res (Some "focal point figure") [] (Some at_infinity)
       /\ results_v res = JString "∞".
Proof.
  intros r fp dr. split; [repeat split |].
  destruct (focal_point_answer fp dr r 15%float (-15)%float
              eq_refl eq_refl eq_refl eq_refl eq_refl eq_refl)
    as (res & c' & C & Rv & _).
  exists res. split; [exact C | exact Rv].
Defined.

(** ** An image height beside an object at the focal point *)

Module B64Infinite.
Open Scope float_scope.

(** A finite float is a zero or has a mantissa. *)
Lemma is_finite_class (x : float) :
  is_finite x
  = match Prim2SF x with
    | S754_nan | S754_infinity _ => false
    | _ => true
    end.
Proof.
  unfold is_finite, is_nan, is_infinity.
  rewrite !FloatAxioms.eqb_spec, abs_spec.
  change (Prim2SF infinity) with (S754_infinity false).
  destruct (Prim2SF x) as [s | s | | s m e]; cbn.
  - reflexivity.
  - now destruct s.
  - reflexivity.
  - rewrite Z.compare_refl, Pos.compare_cont_refl. now destruct s.
Qed.

Lemma is_finite_inv (x : float) :
  is_finite x = true ->
  (exists s, Prim2SF x = S754_zero s)
  \/ (exists s m e, Prim2SF x = S754_finite s m e).
Proof.
  rewrite is_finite_class.
  destruct (Prim2SF x) as [s | s | | s m e]; try discriminate; intros _.
  - left. now exists s.
  - right. now exists s, m, e.
Qed.

Lemma near_sub_is_finite (x y : float) :
  (abs (x - y) <? B64.eps) = true -> is_finite x = true.
Proof.
  intros T. pose proof (B64Near.near_sub_finite _ _ T) as I.
  rewrite is_finite_class.
  revert T I. unfold is_infinity.
  rewrite FloatAxioms.ltb_spec, FloatAxioms.eqb_spec, !abs_spec, sub_spec.
  change (Prim2SF infinity) with (S754_infinity false).
  destruct (Prim2SF x) as [s | s | | s m e]; cbn; try reflexivity;
    intros T I; [discriminate I | discriminate T].
Qed.

Lemma near_add_is_finite (x y : float) :
  (abs (x + y) <? B64.eps) = true -> is_finite x = true.
Proof.
  intros T. pose proof (B64Near.near_add_finite _ _ T) as I.
  rewrite is_finite_class.
  revert T I. unfold is_infinity.
  rewrite FloatAxioms.ltb_spec, FloatAxioms.eqb_spec, !abs_spec, add_spec.
  change (Prim2SF infinity) with (S754_infinity false).
  destruct (Prim2SF x) as [s | s | | s m e]; cbn; try reflexivity;
    intros T I; [discriminate I | discriminate T].
Qed.

Lemma is_infinity_inv (x : float) :
  is_infinity x = true -> exists s, Prim2SF x = S754_infinity s.
Proof.
  intros I. pose proof (B64Order.is_infinity_sign x I) as S.
  destruct (0 <? x); subst x; [now exists false | now exists true].
Qed.

(** An infinity is not zero, and stays one under negation. *)
Lemma infinity_nonzero (x : float) :
  is_infinity x = true -> (x =? 0) = false.
Proof.
  intros I. pose proof (B64Order.is_infinity_sign x I) as S.
  destruct (0 <? x); subst x; reflexivity.
Qed.

Lemma opp_infinity (x : float) :
  is_infinity x = true -> is_infinity (- x) = true.
Proof.
  intros I. pose proof (B64Order.is_infinity_sign x I) as S.
  destruct (0 <? x); subst x; reflexivity.
Qed.

(** An infinity divided by a finite nonzero float is an infinity. *)
Lemma infinity_div_finite (x y : float) :
  is_infinity x = true -> is_finite y = true -> (y =? 0) = false ->
  is_infinity (x / y) = true.
Proof.
  intros I Fy Z.
  destruct (is_infinity_inv x I) as (s & Ex).
  unfold is_infinity. rewrite FloatAxioms.eqb_spec, abs_spec, div_spec, Ex.
  change (Prim2SF infinity) with (S754_infinity false).
  revert Z. rewrite FloatAxioms.eqb_spec.
  change (Prim2SF 0) with (S754_zero false).
  destruct (is_finite_inv y Fy) as [(s' & ->) | (s' & m & e & ->)]; cbn.
  - discriminate.
  - reflexivity.
Qed.

(** A finite float divided by an infinity is a zero. *)
Lemma finite_div_infinity (x y : float) :
  is_finite x = true -> is_infinity y = true -> (x / y =? 0) = true.
Proof.
  intros Fx I.
  destruct (is_infinity_inv y I) as (s & Ey).
  rewrite FloatAxioms.eqb_spec, div_spec, Ey.
  change (Prim2SF 0) with (S754_zero false).
  destruct (is_finite_inv x Fx) as [(s' & ->) | (s' & m & e & ->)];
    reflexivity.
Qed.

End B64Infinite.

Section ImageHeightAtFocus.

Open Scope float_scope.

Variables xu b vinf : float.

Hypothesis u_nonzero : (xu =? 0) = false.
Hypothesis u_finite : is_finite xu = true.
Hypothesis b_finite : is_finite b = true.
Hypothesis v_infinite : is_infinity vinf = true.

(** With v infinite, u finite and not zero, and a finite h2 without h1:
    the magnification is infinite, the object height [h2 / m] is a zero,
    and the next step divides h2 by it. *)
Lemma mirror_heights_raise (c : OpticsCalculator float) :
  u c = Some xu -> v c = Some vinf -> h1 c = None -> h2 c = Some b ->
  bind (bind (mirror_magnification c) mirror_distances_from_heights)
    mirror_default_height
  = ZeroDivisionError (with_h1 (Some (b / (- vinf / xu))) c).
Proof.
  intros Eu Ev Ea Eb.
  pose proof (B64Infinite.infinity_div_finite _ _
                (B64Infinite.opp_infinity _ v_infinite) u_finite u_nonzero)
    as Im.
  unfold mirror_magnification, py_div. rewrite Eu, Ev, Ea, Eb.
  change (f_eq xu f_zero) with (xu =? 0). rewrite u_nonzero.
  change (f_eq (f_quot (f_neg vinf) xu) f_zero) with (- vinf / xu =? 0).
  rewrite (B64Infinite.infinity_nonzero _ Im).
  unfold bind at 2. unfold mirror_distances_from_heights, py_div.
  cbn [h1 h2 with_h1]. rewrite Eb.
  change (f_eq (f_quot b (f_quot (f_neg vinf) xu)) f_zero)
    with (b / (- vinf / xu) =? 0).
  rewrite (B64Infinite.finite_div_infinity _ _ b_finite Im).
  reflexivity.
Qed.

Lemma lens_heights_raise (c : OpticsCalculator float) :
  u c = Some xu -> v c = Some vinf -> h1 c = None -> h2 c = Some b ->
  bind (bind (lens_magnification c) lens_distances_from_heights)
    lens_default_height
  = ZeroDivisionError (with_h1 (Some (b / (vinf / xu))) c).
Proof.
  intros Eu Ev Ea Eb.
  pose proof (B64Infinite.infinity_div_finite _ _ v_infinite u_finite
                u_nonzero) as Im.
  unfold lens_magnification, py_div. rewrite Eu, Ev, Ea, Eb.
  change (f_eq xu f_zero) with (xu =? 0). rewrite u_nonzero.
  change (f_eq (f_quot vinf xu) f_zero) with (vinf / xu =? 0).
  rewrite (B64Infinite.infinity_nonzero _ Im).
  unfold bind at 2. unfold lens_distances_from_heights, py_div.
  cbn [h1 h2 with_h1]. rewrite Eb.
  change (f_eq (f_quot b (f_quot vinf xu)) f_zero)
    with (b / (vinf / xu) =? 0).
  rewrite (B64Infinite.finite_div_infinity _ _ b_finite Im).
  reflexivity.
Qed.

End ImageHeightAtFocus.

Section FocalPointHeight.

Open Scope float_scope.

(** X15.  On binary64, a validated request that supplies f, u and a
    finite image height, without v and h1, with the object within 1e-6 of
    the focal point, always fails: the image distance is infinite, the
    object height derived from h2 is a zero, and the next derivation
    divides by it.  The advisory then reaches the answer, as a blocking
    error before the calculation error. *)
Theorem focal_point_with_image_height (g : Renderer) (r : Request float)
    (f' xu b : float) :
  let data := inputs r in
  let ty := optic_type r in
  let sh := shape r in
  fst (validate_inputs data ty sh reset_values) = true ->
  get_u data = Some xu -> get_v data = None ->
  get_h1 data = None -> get_h2 data = Some b -> is_finite b = true ->
  focal_length (start ty data sh reset_values) = Some f' ->
  (abs (if is_str ty "mirror" then xu - f' else xu + f') <? B64.eps) = true ->
  calculate g r = Failure [object_at_focal_point; calculation_error].
Proof.
  intros data ty sh V Eu Ev Ea Eb Fb Ef T.
  rewrite calculate_result. cbv zeta. fold data ty sh. rewrite V.
  rewrite solver_outcome.
  destruct (validate_inputs data ty sh reset_values) as [ok c1] eqn:EV.
  cbn [fst snd] in *. subst ok.
  destruct (validate_inputs_passed data ty sh _ c1 EV)
    as (_ & _ & _ & Vu & _ & _ & Ee).
  pose proof (B64Facts.negative_nonzero _ (Vu xu Eu)) as Z.
  rewrite (start_focal_length ty sh data reset_values c1) in Ef.
  destruct (start_fields ty sh data c1) as (Su & Sv & Sa & Sb & _).
  destruct (start_diagnostics ty sh data c1) as (Se & _).
  rewrite Eu in Su. rewrite Ev in Sv. rewrite Ea in Sa. rewrite Eb in Sb.
  rewrite Ee in Se.
  set (c0 := start ty data sh c1) in *. clearbody c0.
  set (vinf := fun neg : bool => if neg then infinity else neg_infinity).
  assert (Iv : forall neg, is_infinity (vinf neg) = true)
    by (intros []; reflexivity).
  unfold mirror_solve, lens_solve, mirror_formula, lens_formula.
  rewrite Su, Sv, Ef.
  destruct (is_str ty "mirror").
  - change (f_lt (f_abs (f_sub xu f')) f_eps) with (abs (xu - f') <? B64.eps).
    rewrite T. cbn [bind].
    change (if f_lt f' f_zero then f_inf else f_ninf)
      with (vinf (f' <? 0)).
    rewrite (mirror_heights_raise xu b (vinf (f' <? 0)) Z
               (B64Infinite.near_sub_is_finite _ _ T) Fb (Iv _));
      try assumption; try reflexivity.
    cbn. now rewrite Se.
  - change (f_lt (f_abs (f_add xu f')) f_eps) with (abs (xu + f') <? B64.eps).
    rewrite T. cbn [bind].
    change (if f_gt f' f_zero then f_inf else f_ninf)
      with (vinf (0 <? f')).
    rewrite (lens_heights_raise xu b (vinf (0 <? f')) Z
               (B64Infinite.near_add_is_finite _ _ T) Fb (Iv _));
      try assumption; try reflexivity.
    cbn. now rewrite Se.
Qed.

End FocalPointHeight.

(** A convex lens with f = 20, u = -20 and h2 = 5. *)
Lemma focal_point_with_image_height_witness :
  let r := request_of lens convex
             (inputs_of (Some 20%float) (Some (-20)%float) None None
                (Some 5%float)) in
  (fst (validate_inputs (inputs r) (optic_type r) (shape r) reset_values)
   = true
   /\ is_finite 5%float = true
   /\ (abs (-20 + 20) <? B64.eps)%float = true)
  /\ calculate (fun _ _ _ => None) r
     = Failure [object_at_focal_point; calculation_error].
Proof.
  intros r. split; [repeat split |].
  exact (focal_point_with_image_height (fun _ _ _ => None) r
           20%float (-20)%float 5%float
           eq_refl eq_refl eq_refl eq_refl eq_refl eq_refl eq_refl eq_refl).
Defined.

(** ** The three lens formulas in exact arithmetic *)

Module ExactLens.

(** With [v = f u / (u + f)]: [v - u] is [- u^2 / (u + f)], and
    [v - f] is [- f^2 / (u + f)]. *)
Lemma image_distance_difference (qf qu : Qc) :
  qu <> Q2Qc 0 -> (qu + qf <> Q2Qc 0)%Qc ->
  (qf * qu / (qu + qf) + - qu <> Q2Qc 0)%Qc.
Proof.
  intros U X E.
  assert (P : (- (qu * qu) = (qf * qu / (qu + qf) + - qu) * (qu + qf))%Qc)
    by (field; exact X).
  rewrite E, Qcmult_0_l in P.
  assert (P' : (- qu * qu = Q2Qc 0)%Qc) by (rewrite <- P; ring).
  destruct (Qcmult_integral _ _ P') as [A | A]; [| contradiction].
  apply U. rewrite <- (Qcopp_involutive qu), A. ring.
Qed.

Lemma focal_length_negated (qf qu : Qc) :
  qu <> Q2Qc 0 -> (qu + qf <> Q2Qc 0)%Qc ->
  (qu * (qf * qu / (qu + qf)) / (qf * qu / (qu + qf) + - qu) = - qf)%Qc.
Proof.
  intros U X. field. split; [exact X |]. intros E.
  assert (P : (- qu * qu = Q2Qc 0)%Qc) by (rewrite <- E; ring).
  destruct (Qcmult_integral _ _ P) as [A | A]; [| contradiction].
  apply U. rewrite <- (Qcopp_involutive qu), A. ring.
Qed.

Lemma focal_length_nonzero (qf qu : Qc) :
  (qu + qf <> Q2Qc 0)%Qc ->
  (qf * qu / (qu + qf) + - qf <> Q2Qc 0)%Qc -> qf <> Q2Qc 0.
Proof.
  intros X N E. subst qf. apply N. field.
  intros K. apply X. rewrite K. ring.
Qed.

Lemma object_distance_negated (qf qu : Qc) :
  (qu + qf <> Q2Qc 0)%Qc -> qf <> Q2Qc 0 ->
  (qf * (qf * qu / (qu + qf)) / (qf * qu / (qu + qf) + - qf) = - qu)%Qc.
Proof.
  intros X N. field. split; [exact X |]. intros E.
  assert (P : (- qf * qf = Q2Qc 0)%Qc) by (rewrite <- E; ring).
  destruct (Qcmult_integral _ _ P) as [A | A]; [| contradiction].
  apply N. rewrite <- (Qcopp_involutive qf), A. ring.
Qed.

End ExactLens.



(** ** The mirror formulas in exact arithmetic *)

Module ExactMirror.

Lemma focal_length_not_zero (qf qu : Qc) :
  (qu + - qf <> Q2Qc 0)%Qc ->
  (qf * qu / (qu + - qf) + - qf <> Q2Qc 0)%Qc -> qf <> Q2Qc 0.
Proof.
  intros X N E. subst qf. apply N. field.
  intros K. apply X. rewrite K. ring.
Qed.

Lemma object_distance_recovered (qf qu : Qc) :
  (qu + - qf <> Q2Qc 0)%Qc -> qf <> Q2Qc 0 ->
  (qf * (qf * qu / (qu + - qf)) / (qf * qu / (qu + - qf) + - qf) = qu)%Qc.
Proof.
  intros X N. field. split; [exact X |]. intros E.
  assert (P : (qf * qf = Q2Qc 0)%Qc) by (rewrite <- E; ring).
  destruct (Qcmult_integral _ _ P); contradiction.
Qed.

End ExactMirror.



(** ** Edge inputs *)

(** X18.  Every number in the results of a successful answer is a value
    of [round(x, 3)]: the solver rounds all five values before it
    returns, and leaves only the infinities as they are, which the route
    then shows as strings. *)
Theorem results_are_rounded {F : Type} `{PyFloat F}
    (g : OpticsCalculator F -> option string -> option string
         -> option string)
    (r : Request F) (res : Results F) (d : option string)
    (ws : list string) (ic : option (ImageCharacteristics F)) (x : F) :
  calculate g r = Success res d ws ic ->
  In (JNumber x)
    [results_focal_length res; results_u res; results_v res;
     results_h1 res; results_h2 res] ->
  exists y, x = f_round3 y /\ f_isinf y = false.
Proof.
  intros C I.
  destruct (calculate_success g r res d ws ic C)
    as (c' & S & -> & _ & _ & _).
  destruct (solver_succeeded _ _ _ _ _ S)
    as (c4 & _ & _ & _ & _ & Rf & Ru & Rv & Ra & Rb).
  cbn [results_focal_length results_u results_v results_h1 results_h2] in I.
  rewrite Rf, Ru, Rv, Ra, Rb in I.
  assert (N : forall o : option F,
            safe_value (round_value o) = JNumber x ->
            exists y, x = f_round3 y /\ f_isinf y = false).
  { intros [a|]; cbn; [| discriminate].
    destruct (f_isinf a) eqn:Ia; cbn.
    - rewrite Ia. destruct (f_gt a f_zero); discriminate.
    - destruct (f_isinf (f_round3 a)).
      + destruct (f_gt (f_round3 a) f_zero); discriminate.
      + intros [= <-]. now exists a. }
  destruct I as [K | [K | [K | [K | [K | []]]]]]; exact (N _ K).
Qed.

(** The concave mirror with f = -50 and u = -20: v is shown as 33.333. *)
Lemma results_are_rounded_witness :
  let r := request_of mirror concave
             (inputs_of (Some (-50)%float) (Some (-20)%float)
                None None None) in
  exists res d ws ic x,
    (calculate (fun _ _ _ => None) r = Success res d ws ic
     /\ results_v res = JNumber x)
    /\ exists y, x = B64.round3 y /\ is_infinity y = false.
Proof.
  intros r.
  destruct (calculate (fun _ _ _ => None) r) as [res d ws ic | es] eqn:C;
    [| exfalso; vm_compute in C; discriminate C].
  destruct (results_v res) as [| s | x] eqn:V;
    [exfalso; vm_compute in C; injection C as <- _ _ _; discriminate V
    | exfalso; vm_compute in C; injection C as <- _ _ _; discriminate V |].
  exists res, d, ws, ic, x. split; [split; [reflexivity | exact V] |].
  apply (results_are_rounded (fun _ _ _ => None) r res d ws ic x C).
  right; right; left. exact V.
Defined.

(** X19.  An optic type other than mirror is validated and solved as a
    lens, whatever the string is: there is no check that it is one of the
    two known types. *)
Theorem other_optic_type_is_lens {F : Type} `{PyFloat F}
    (ty sh : option string) (data : Data F) (c : OpticsCalculator F) :
  truthy ty = true -> is_str ty "mirror" = false ->
  validate_inputs data ty sh c = validate_inputs data lens sh c
  /\ solver ty data sh c = calculate_lens data sh c
  /\ forall g,
       results_of (calculate g {| optic_type := ty; shape := sh;
                                  inputs := data |})
       = results_of (calculate g {| optic_type := lens; shape := sh;
                                    inputs := data |}).
Proof.
  intros T M.
  assert (V : validate_inputs data ty sh c = validate_inputs data lens sh c).
  { rewrite !validate_inputs_result.
    unfold sign_warnings. rewrite T, M. reflexivity. }
  assert (V0 : validate_inputs data ty sh reset_values
               = validate_inputs data lens sh reset_values).
  { rewrite !validate_inputs_result.
    unfold sign_warnings. rewrite T, M. reflexivity. }
  split; [exact V |]. split.
  - unfold solver. now rewrite M.
  - intros g. rewrite !calculate_result. cbv zeta.
    cbn [optic_type shape inputs]. rewrite V0.
    destruct (fst (validate_inputs data lens sh reset_values));
      [| reflexivity].
    unfold solver. rewrite M. cbn [is_str lens String.eqb Ascii.eqb Bool.eqb].
    now destruct (fst (calculate_lens _ _ _)).
Qed.

(** A prism with f = 10 and u = -30 gets the lens answer v = 15. *)
Lemma other_optic_type_is_lens_witness :
  let data := inputs_of (Some 10%float) (Some (-30)%float) None None None in
  (truthy (Some "prism") = true /\ is_str (Some "prism") "mirror" = false)
  /\ results_of (calculate (fun _ _ _ => None)
                   (request_of (Some "prism") convex data))
     = results_of (calculate (fun _ _ _ => None)
                     (request_of lens convex data)).
Proof.
  intros data. split; [split; reflexivity |].
  exact (proj2 (proj2 (other_optic_type_is_lens (Some "prism") convex data
                         reset_values eq_refl eq_refl))
           (fun _ _ _ => None)).
Defined.

Module B64NaN.
Open Scope float_scope.

(** Every comparison with a not-a-number is false. *)
Lemma is_nan_compare (x : float) :
  is_nan x = true ->
  (x =? 0) = false /\ (0 <=? x) = false /\ (x <=? 0) = false.
Proof.
  unfold is_nan.
  rewrite !FloatAxioms.eqb_spec, !FloatAxioms.leb_spec.
  change (Prim2SF 0) with (S754_zero false).
  destruct (Prim2SF x) as [s | s | | s m e]; cbn.
  - discriminate.
  - now destruct s.
  - repeat split.
  - rewrite Z.compare_refl, Pos.compare_cont_refl. now destruct s.
Qed.

End B64NaN.

(** X20.  On binary64, validation does not reject a not-a-number: with
    both selections made and two values supplied, an input whose f, u and
    h1 are each missing or not a number passes, without a warning, since
    every check is a comparison and a comparison with a not-a-number is
    false. *)
Theorem nan_passes_validation (data : Data float) (ty sh : option string)
    (c : OpticsCalculator float) :
  truthy ty = true -> truthy sh = true -> (2 <= given_values data)%nat ->
  (forall f, get_focal_length data = Some f -> is_nan f = true) ->
  (forall x, get_u data = Some x -> is_nan x = true) ->
  (forall a, get_h1 data = Some a -> is_nan a = true) ->
  fst (validate_inputs data ty sh c) = true
  /\ errors (snd (validate_inputs data ty sh c)) = []
  /\ warnings (snd (validate_inputs data ty sh c)) = [].
Proof.
  intros T S G Nf Nu Na.
  rewrite validate_inputs_result, T, S. cbn [andb fst snd].
  assert (E : validation_errors data = []).
  { unfold validation_errors, focal_length_errors, u_errors, h1_errors,
      count_errors.
    apply Nat.ltb_ge in G. rewrite G.
    destruct (get_focal_length data) as [f|];
      [destruct (B64NaN.is_nan_compare f (Nf f eq_refl)) as (Z & _ & _);
       change (f_eq f f_zero) with (f =? 0)%float; rewrite Z |];
      (destruct (get_u data) as [x|];
       [destruct (B64NaN.is_nan_compare x (Nu x eq_refl)) as (_ & P & _);
        change (f_ge x f_zero) with (0 <=? x)%float; rewrite P |]);
      (destruct (get_h1 data) as [a|];
       [destruct (B64NaN.is_nan_compare a (Na a eq_refl)) as (_ & _ & P');
        change (f_le a f_zero) with (a <=? 0)%float; rewrite P' |]);
      reflexivity. }
  rewrite E. split; [reflexivity |]. split; [reflexivity |].
  cbn [warnings with_warnings]. unfold sign_warnings.
  destruct (get_focal_length data) as [f|]; [| reflexivity].
  destruct (B64NaN.is_nan_compare f (Nf f eq_refl)) as (Z & P & P').
  change (f_eq f f_zero) with (f =? 0)%float.
  change (f_le f f_zero) with (f <=? 0)%float.
  change (f_ge f f_zero) with (0 <=? f)%float.
  rewrite Z, P, P', !Bool.andb_false_r.
  now destruct (is_str ty "mirror").
Qed.

(** A concave mirror whose focal length and object distance are both
    not a number. *)
Lemma nan_passes_validation_witness :
  let data := inputs_of (Some nan) (Some nan) None None None in
  (truthy mirror = true /\ truthy concave = true
   /\ (2 <= given_values data)%nat /\ is_nan nan = true)
  /\ fst (validate_inputs data mirror concave reset_values) = true.
Proof.
  intros data.
  assert (G : (2 <= given_values data)%nat) by apply le_n.
  split; [repeat split; exact G |].
  apply (nan_passes_validation data mirror concave reset_values eq_refl
           eq_refl G).
  - intros f [= <-]. reflexivity.
  - intros x [= <-]. reflexivity.
  - intros a E. discriminate E.
Defined.
